(** * FlagHoist: the distance calculator, the location fetcher and the places proxy

    A shallow embedding of the two source files of the application:

    - [src/app/api/places/route.ts]: the [GET] handler of the places proxy;
    - the page component: [calculateDistance], [getLocation], the debounced
      [fetchLocations] and the directions callback.

    JavaScript numbers are IEEE-754 doubles.  The arithmetic of the source is
    written once, over the interface [JSNumber], and read at two instances:

    - [float]: Rocq's primitive binary64 floats, whose [+ - * /] and [sqrt]
      are the ones of JavaScript.  [Math.sin], [Math.cos] and [Math.atan2]
      are implementation-approximated in ECMAScript; an [Engine] supplies
      them together with the special cases ECMA-262 fixes.  What is said
      of the value of [calculateDistance] is proved at this instance, for
      every engine or under a stated hypothesis on the engine.
    - [xreal]: the extended reals (a real, +Infinity, -Infinity or NaN) with
      exact arithmetic on the finite values.  It keeps the special values,
      their propagation and the order, and leaves out rounding, overflow and
      the sign of zero; it is not the arithmetic of the program.  It is used
      where only the order of the distances, or the presence of a NaN,
      matters: the sort and the sample runs of the fetcher. *)

From Stdlib Require Import Reals ROrderedType Lra Lia ZArith List Bool String Ascii.
From Stdlib Require Import Sorted Permutation.
From Stdlib Require Floats.
Import ListNotations.

Set Implicit Arguments.

(** ** Numbers *)

Declare Scope js_scope.
Delimit Scope js_scope with js.

Class JSNumber (N : Type) : Type := {
  (** an integer literal of the source *)
  lit : Z -> N;
  Infinity : N;
  Math_PI : N;
  js_add : N -> N -> N;
  js_sub : N -> N -> N;
  js_mul : N -> N -> N;
  js_div : N -> N -> N;
  Math_sqrt : N -> N;
  Math_sin : N -> N;
  Math_cos : N -> N;
  Math_atan2 : N -> N -> N;
  (** the global [isNaN] on a number *)
  isNaN : N -> bool;
  (** ToBoolean: false on zero and on NaN *)
  truthy : N -> bool;
  (** [v > 0], what a sort asks of a comparator's result to know whether two
      elements are to be exchanged (a NaN result is read as equal) *)
  positive : N -> bool
}.

Infix "+" := js_add : js_scope.
Infix "-" := js_sub : js_scope.
Infix "*" := js_mul : js_scope.
Infix "/" := js_div : js_scope.

(** *** The extended reals *)

Inductive xreal : Type :=
| Fin (r : R)
| PInf
| NInf
| NaN.

Module XReal.

Definition sign (r : R) : comparison := Rcompare r 0.

Definition neg (x : xreal) : xreal :=
  match x with
  | Fin r => Fin (- r)
  | PInf => NInf
  | NInf => PInf
  | NaN => NaN
  end.

Definition add (x y : xreal) : xreal :=
  match x, y with
  | NaN, _ | _, NaN => NaN
  | Fin a, Fin b => Fin (a + b)
  | PInf, NInf | NInf, PInf => NaN
  | PInf, _ | _, PInf => PInf
  | NInf, _ | _, NInf => NInf
  end.

Definition sub (x y : xreal) : xreal := add x (neg y).

(** An infinity scaled by a finite factor. *)
Definition scale (inf : xreal) (r : R) : xreal :=
  match sign r with
  | Gt => inf
  | Lt => neg inf
  | Eq => NaN
  end.

Definition mul (x y : xreal) : xreal :=
  match x, y with
  | NaN, _ | _, NaN => NaN
  | Fin a, Fin b => Fin (a * b)
  | Fin a, PInf | PInf, Fin a => scale PInf a
  | Fin a, NInf | NInf, Fin a => scale NInf a
  | PInf, PInf | NInf, NInf => PInf
  | PInf, NInf | NInf, PInf => NInf
  end.

(** Division; a zero divisor is read as +0, the only zero of this model. *)
Definition div (x y : xreal) : xreal :=
  match x, y with
  | NaN, _ | _, NaN => NaN
  | Fin a, Fin b =>
      match sign b with
      | Eq => scale PInf a
      | _ => Fin (a / b)
      end
  | Fin _, (PInf | NInf) => Fin 0
  | PInf, Fin b => match sign b with Lt => NInf | _ => PInf end
  | NInf, Fin b => match sign b with Lt => PInf | _ => NInf end
  | (PInf | NInf), (PInf | NInf) => NaN
  end.

Definition sqrt (x : xreal) : xreal :=
  match x with
  | Fin r => match sign r with Lt => NaN | _ => Fin (R_sqrt.sqrt r) end
  | PInf => PInf
  | NInf | NaN => NaN
  end.

Definition sin (x : xreal) : xreal :=
  match x with Fin r => Fin (Rtrigo_def.sin r) | _ => NaN end.

Definition cos (x : xreal) : xreal :=
  match x with Fin r => Fin (Rtrigo_def.cos r) | _ => NaN end.

(** The angle of the point [(x, y)] with finite coordinates, by the cases of
    ECMA-262's [Math.atan2] (with +0 for every zero). *)
Definition angle (y x : R) : R :=
  match sign x, sign y with
  | Gt, _ => atan (y / x)
  | Lt, Lt => atan (y / x) - PI
  | Lt, _ => atan (y / x) + PI
  | Eq, Gt => PI / 2
  | Eq, Lt => - (PI / 2)
  | Eq, Eq => 0
  end.

(** [Math.atan2 y x]. *)
Definition atan2 (y x : xreal) : xreal :=
  match y, x with
  | NaN, _ | _, NaN => NaN
  | Fin b, Fin a => Fin (angle b a)
  | Fin b, PInf => Fin 0
  | Fin b, NInf => match sign b with Lt => Fin (- PI) | _ => Fin PI end
  | PInf, Fin _ => Fin (PI / 2)
  | NInf, Fin _ => Fin (- (PI / 2))
  | PInf, PInf => Fin (PI / 4)
  | PInf, NInf => Fin (3 * PI / 4)
  | NInf, PInf => Fin (- (PI / 4))
  | NInf, NInf => Fin (- (3 * PI / 4))
  end.

Definition is_nan (x : xreal) : bool :=
  match x with NaN => true | _ => false end.

Definition to_boolean (x : xreal) : bool :=
  match x with
  | Fin r => match sign r with Eq => false | _ => true end
  | PInf | NInf => true
  | NaN => false
  end.

Definition gt0 (x : xreal) : bool :=
  match x with
  | Fin r => match sign r with Gt => true | _ => false end
  | PInf => true
  | NInf | NaN => false
  end.

(** A number that is neither NaN nor an infinity. *)
Definition finite (x : xreal) : bool :=
  match x with Fin _ => true | _ => false end.

(** [x <= y]; false as soon as one side is NaN. *)
Definition le (x y : xreal) : Prop :=
  match x, y with
  | NaN, _ | _, NaN => False
  | NInf, _ | _, PInf => True
  | Fin a, Fin b => (a <= b)%R
  | _, _ => False
  end.

(** [x === y]. *)
Definition eqb (x y : xreal) : bool :=
  match x, y with
  | Fin a, Fin b => if Req_dec_T a b then true else false
  | PInf, PInf | NInf, NInf => true
  | _, _ => false
  end.

End XReal.

#[export] Instance xreal_number : JSNumber xreal := {
  lit z := Fin (IZR z);
  Infinity := PInf;
  Math_PI := Fin PI;
  js_add := XReal.add;
  js_sub := XReal.sub;
  js_mul := XReal.mul;
  js_div := XReal.div;
  Math_sqrt := XReal.sqrt;
  Math_sin := XReal.sin;
  Math_cos := XReal.cos;
  Math_atan2 := XReal.atan2;
  isNaN := XReal.is_nan;
  truthy := XReal.to_boolean;
  positive := XReal.gt0
}.

(** ** The distance calculator *)

Section Distance.

Context {N : Type} `{JSNumber N}.

Local Open Scope js_scope.

(** [calculateDistance], line by line. *)
Definition calculateDistance (lat1 lon1 lat2 lon2 : N) : N :=
  let R := lit 6371 in
  let dLat := ((lat2 - lat1) * Math_PI) / lit 180 in
  let dLon := ((lon2 - lon1) * Math_PI) / lit 180 in
  let a :=
    Math_sin (dLat / lit 2) * Math_sin (dLat / lit 2) +
    Math_cos ((lat1 * Math_PI) / lit 180) * Math_cos ((lat2 * Math_PI) / lit 180) *
    Math_sin (dLon / lit 2) * Math_sin (dLon / lit 2) in
  let c := lit 2 * Math_atan2 (Math_sqrt a) (Math_sqrt (lit 1 - a)) in
  R * c.


End Distance.

(** *** IEEE doubles *)

Module Double.

Import Floats.
Local Open Scope float_scope.

(** What an ECMAScript engine supplies: the three approximated functions of
    [Math] the source calls, with the special cases ECMA-262 fixes for them
    (a NaN or infinite argument of [Math.sin] and [Math.cos] gives NaN; a NaN
    argument of [Math.atan2] gives NaN). *)
Record Engine : Type := {
  engine_sin : float -> float;
  engine_cos : float -> float;
  engine_atan2 : float -> float -> float;
  sin_not_finite : forall x, is_finite x = false -> engine_sin x = nan;
  cos_not_finite : forall x, is_finite x = false -> engine_cos x = nan;
  atan2_nan_l : forall x, engine_atan2 nan x = nan;
  atan2_nan_r : forall y, engine_atan2 y nan = nan
}.

(** The double nearest to an integer. *)
Definition of_Z (z : Z) : float :=
  SF2Prim (binary_normalize prec emax z 0 false).

Definition to_boolean (x : float) : bool :=
  negb ((x =? 0) || is_nan x).

#[export] Instance float_number (E : Engine) : JSNumber float := {
  lit := of_Z;
  Infinity := infinity;
  Math_PI := 0x1.921fb54442d18p+1;
  js_add := PrimFloat.add;
  js_sub := PrimFloat.sub;
  js_mul := PrimFloat.mul;
  js_div := PrimFloat.div;
  Math_sqrt := PrimFloat.sqrt;
  Math_sin := engine_sin E;
  Math_cos := engine_cos E;
  Math_atan2 := engine_atan2 E;
  isNaN := is_nan;
  truthy := to_boolean;
  positive x := 0 <? x
}.

(** A crude engine: NaN where ECMA-262 says so and a one-term approximation
    elsewhere.  It is used for nothing but to show that an [Engine] exists. *)
Definition crude_atan2 (y x : float) : float :=
  if is_nan y || is_nan x then nan else y / (abs y + abs x).

Definition crude_sin (x : float) : float :=
  if is_finite x then x else nan.

Definition crude_cos (x : float) : float :=
  if is_finite x then 1 else nan.

Lemma crude_sin_not_finite (x : float) : is_finite x = false -> crude_sin x = nan.
Proof. unfold crude_sin. now intros ->. Qed.

Lemma crude_cos_not_finite (x : float) : is_finite x = false -> crude_cos x = nan.
Proof. unfold crude_cos. now intros ->. Qed.

Lemma crude_atan2_nan_r (y : float) : crude_atan2 y nan = nan.
Proof.
  unfold crude_atan2. change (is_nan nan) with true. now rewrite orb_true_r.
Qed.

(** The laws of [Engine] can be met. *)
Definition crude : Engine := {|
  engine_sin := crude_sin;
  engine_cos := crude_cos;
  engine_atan2 := crude_atan2;
  sin_not_finite := crude_sin_not_finite;
  cos_not_finite := crude_cos_not_finite;
  atan2_nan_l := fun x => eq_refl;
  atan2_nan_r := crude_atan2_nan_r
|}.

(** An engine that gives the correctly rounded sine and cosine at the angles
    [calculateDistance] reaches from the points (-87.5, 0) and (87.5, 180):
    sin 1.5271630954950384 = 0.9990482215818578,
    cos 1.5271630954950384 = 0.04361938736533600 and sin (PI / 2) = 1, with
    the signs of an odd sine and an even cosine; sin 0 = 0 and cos 0 = 1; it
    is crude elsewhere. *)
Definition sampled_sin (x : float) : float :=
  if is_finite x then
    if abs x =? 0x1.86f4291ecf2f3p+0 then x / abs x * 0x1.ff833f9da45f7p-1
    else if abs x =? 0x1.921fb54442d18p+0 then x / abs x
    else x
  else nan.

Definition sampled_cos (x : float) : float :=
  if is_finite x then
    if abs x =? 0x1.86f4291ecf2f3p+0 then 0x1.65547c4694e32p-5 else 1
  else nan.

Lemma sampled_sin_not_finite (x : float) : is_finite x = false -> sampled_sin x = nan.
Proof. unfold sampled_sin. now intros ->. Qed.

Lemma sampled_cos_not_finite (x : float) : is_finite x = false -> sampled_cos x = nan.
Proof. unfold sampled_cos. now intros ->. Qed.

Definition sampled : Engine := {|
  engine_sin := sampled_sin;
  engine_cos := sampled_cos;
  engine_atan2 := crude_atan2;
  sin_not_finite := sampled_sin_not_finite;
  cos_not_finite := sampled_cos_not_finite;
  atan2_nan_l := fun x => eq_refl;
  atan2_nan_r := crude_atan2_nan_r
|}.

(** An engine whose sine is odd.  ECMA-262 does not ask for it; the usual
    implementations have it. *)
Definition odd_sine (E : Engine) : Prop :=
  forall x : float, engine_sin E (- x) = - engine_sin E x.

(** Half of a difference of degrees, in radians (lines 34-37). *)
Definition half (d : float) : float :=
  d * 0x1.921fb54442d18p+1 / of_Z 180 / of_Z 2.

End Double.

(** ** The page: data and state *)

Section Page.

Context (N : Type) `{JSNumber N}.

(** The value of [google.maps.DirectionsResult], opaque to the page. *)
Variable DirectionsResult : Type.

Local Open Scope string_scope.

(** [interface UserLocation]; the [location] of a place has the same shape. *)
Record UserLocation : Type := {
  lat : N;
  lng : N
}.

Record Geometry : Type := {
  location : UserLocation
}.

(** [interface PlaceResult]; [rating] and [distance] are optional. *)
Record PlaceResult : Type := {
  geometry : Geometry;
  name : string;
  vicinity : string;
  rating : option N;
  distance : option N
}.

(** The six [useState] cells of [Home], with their initial values. *)
Record State : Type := {
  userLocation : option UserLocation;
  locations : list PlaceResult;
  loading : bool;
  error : string;
  selectedLocation : option PlaceResult;
  directionsResult : option DirectionsResult
}.

Definition initial : State := {|
  userLocation := None;
  locations := [];
  loading := false;
  error := "";
  selectedLocation := None;
  directionsResult := None
|}.

(** A call of one of the six setters. *)
Inductive SetState : Type :=
| setUserLocation (u : UserLocation)
| setLocations (l : list PlaceResult)
| setLoading (b : bool)
| setError (msg : string)
| setSelectedLocation (p : PlaceResult)
| setDirectionsResult (d : DirectionsResult).

Definition set (a : SetState) (s : State) : State :=
  match a with
  | setUserLocation u =>
      {| userLocation := Some u; locations := locations s; loading := loading s;
         error := error s; selectedLocation := selectedLocation s;
         directionsResult := directionsResult s |}
  | setLocations l =>
      {| userLocation := userLocation s; locations := l; loading := loading s;
         error := error s; selectedLocation := selectedLocation s;
         directionsResult := directionsResult s |}
  | setLoading b =>
      {| userLocation := userLocation s; locations := locations s; loading := b;
         error := error s; selectedLocation := selectedLocation s;
         directionsResult := directionsResult s |}
  | setError msg =>
      {| userLocation := userLocation s; locations := locations s; loading := loading s;
         error := msg; selectedLocation := selectedLocation s;
         directionsResult := directionsResult s |}
  | setSelectedLocation p =>
      {| userLocation := userLocation s; locations := locations s; loading := loading s;
         error := error s; selectedLocation := Some p;
         directionsResult := directionsResult s |}
  | setDirectionsResult d =>
      {| userLocation := userLocation s; locations := locations s; loading := loading s;
         error := error s; selectedLocation := selectedLocation s;
         directionsResult := Some d |}
  end.

(** The state after a run of setter calls, oldest first. *)
Definition after (calls : list SetState) (s : State) : State :=
  fold_left (fun st a => set a st) calls s.

(** ** Sorting by distance *)

(** [Array.prototype.sort] with a comparator: a stable sort that asks of each
    comparison only whether its result is positive.  Insertion from the right
    end: an element stays in front of the elements that followed it unless the
    comparator puts it after them. *)
Fixpoint insert {A : Type} (compare : A -> A -> N) (x : A) (l : list A) : list A :=
  match l with
  | [] => [x]
  | y :: l' => if positive (compare x y) then y :: insert compare x l' else x :: l
  end.

Definition Array_sort {A : Type} (compare : A -> A -> N) (l : list A) : list A :=
  fold_right (insert compare) [] l.

(** [d || Infinity] on an optional number: [undefined], zero and NaN are
    falsy. *)
Definition orInfinity (d : option N) : N :=
  match d with
  | Some v => if truthy v then v else Infinity
  | None => Infinity
  end.

(** The comparator of line 97. *)
Definition byDistance (a b : PlaceResult) : N :=
  (orInfinity (distance a) - orInfinity (distance b))%js.

(** The mapping of lines 88-96: the place with [distance] set. *)
Definition withDistance (lat0 lng0 : N) (p : PlaceResult) : PlaceResult := {|
  geometry := geometry p;
  name := name p;
  vicinity := vicinity p;
  rating := rating p;
  distance :=
    Some (calculateDistance lat0 lng0 (lat (location (geometry p)))
                                      (lng (location (geometry p))))
|}.

Definition locationsWithDistance (lat0 lng0 : N) (data : list PlaceResult)
  : list PlaceResult :=
  Array_sort byDistance (map (withDistance lat0 lng0) data).

(** ** The location fetcher *)

(** The request of line 84: the path and the two interpolated numbers. *)
Record Request : Type := {
  path : string;
  query : list (string * N)
}.

(** What the two awaits of lines 84-85 can give. *)
Inductive Response : Type :=
| fetch_rejects                       (** the transport fails *)
| json_rejects                        (** the body is not JSON *)
| json_other                          (** JSON, but no array of places:
                                          [data.map] or a property read throws *)
| json_places (data : list PlaceResult).

(** A run of an async function with at most one request: the setter calls made
    before it returns or awaits, the request, and the setter calls made once
    the request has settled. *)
Inductive Run : Type :=
| Return (calls : list SetState)
| Await (calls : list SetState) (req : Request) (resume : Response -> list SetState).

(** The async arrow handed to [debounce] (lines 76-105). *)
Definition fetchLocations_callback (lat0 lng0 : N) : Run :=
  if isNaN lat0 || isNaN lng0 then
    Return [setError "Invalid coordinates received. Unable to fetch locations."]
  else
    Await [setLoading true]
      {| path := "/api/places"; query := [("lat", lat0); ("lng", lng0)] |}
      (fun r =>
         match r with
         | json_places data =>
             [setLocations (locationsWithDistance lat0 lng0 data); setLoading false]
         | _ => [setError "Failed to fetch locations."; setLoading false]
         end).

(** The requests a run issues and the setter calls it makes, given how its
    request settles. *)
Definition requests (r : Run) : list Request :=
  match r with
  | Return _ => []
  | Await _ req _ => [req]
  end.

Definition calls (r : Run) (settled : Response) : list SetState :=
  match r with
  | Return cs => cs
  | Await cs _ resume => cs ++ resume settled
  end.

(** ** The geolocation acquirer *)

Record PositionOptions : Type := {
  enableHighAccuracy : bool;
  maximumAge : Z;
  timeout : Z
}.

(** What [navigator.geolocation.getCurrentPosition] reports. *)
Inductive Position : Type :=
| coords (latitude longitude : N)
| position_error.

(** A run of [getLocation]: it returns at once, or it registers the two
    callbacks with the options. *)
Inductive Acquire : Type :=
| Unsupported (calls : list SetState)
| getCurrentPosition (success : N -> N -> list SetState)
                     (failure : list SetState)
                     (options : PositionOptions).

(** [getLocation] (lines 52-73); the argument says whether
    [navigator.geolocation] is there. *)
Definition getLocation (geolocation : bool) : Acquire :=
  if geolocation then
    getCurrentPosition
      (fun latitude longitude =>
         [setUserLocation {| lat := latitude; lng := longitude |}])
      [setError "Please enable location access to find nearby locations."]
      {| enableHighAccuracy := true; maximumAge := 0; timeout := 10000 |}
  else
    Unsupported [setError "Geolocation is not supported by your browser."].

Definition acquired (r : Acquire) (p : Position) : list SetState :=
  match r with
  | Unsupported cs => cs
  | getCurrentPosition success failure _ =>
      match p with
      | coords latitude longitude => success latitude longitude
      | position_error => failure
      end
  end.

(** The second effect (lines 111-115): the arguments of the call of
    [fetchLocations] it makes, if it makes one. *)
Definition fetchEffect (s : State) : option (N * N) :=
  match userLocation s with
  | Some u => Some (lat u, lng u)
  | None => None
  end.

(** ** Selection and route *)

(** The options of [DirectionsService] (lines 187-196); the travel mode is
    always [DRIVING]. *)
Record DirectionsRequest : Type := {
  destination : UserLocation;
  origin : UserLocation
}.

Definition directionsRequest (s : State) : option DirectionsRequest :=
  match selectedLocation s, userLocation s with
  | Some p, Some u =>
      Some {| destination := {| lat := lat (location (geometry p));
                                lng := lng (location (geometry p)) |};
              origin := u |}
  | _, _ => None
  end.

(** The callback of [DirectionsService] (lines 197-203); a failure is logged
    and sets nothing. *)
Definition directionsCallback (result : DirectionsResult) (status : string)
  : list SetState :=
  if String.eqb status "OK" then [setDirectionsResult result] else [].

(** ** What the page shows *)

(** The list section (lines 231-274). *)
Inductive ListPanel : Type :=
| Searching
| Cards (l : list PlaceResult)
| NoneFound.

Definition listPanel (s : State) : ListPanel :=
  if loading s then Searching
  else if (0 <? List.length (locations s))%nat then Cards (locations s)
  else NoneFound.

(** The main area under the banner (lines 157-284). *)
Inductive MainArea : Type :=
| MapAndList (panel : ListPanel)
| Detecting
| Nothing.

Definition mainArea (s : State) : MainArea :=
  match userLocation s with
  | Some _ => MapAndList (listPanel s)
  | None => if String.eqb (error s) "" then Detecting else Nothing
  end.

(** The banner (lines 151-155): shown when [error] is not the empty string. *)
Definition banner (s : State) : option string :=
  if String.eqb (error s) "" then None else Some (error s).

End Page.

Arguments byDistance {N _} a b.
Arguments setUserLocation {N DirectionsResult} u.
Arguments setLocations {N DirectionsResult} l.
Arguments setLoading {N DirectionsResult} b.
Arguments setError {N DirectionsResult} msg.
Arguments setSelectedLocation {N DirectionsResult} p.
Arguments setDirectionsResult {N DirectionsResult} d.
Arguments fetch_rejects {N}.
Arguments json_rejects {N}.
Arguments json_other {N}.
Arguments position_error {N}.
Arguments Searching {N}.
Arguments NoneFound {N}.
Arguments Detecting {N}.
Arguments Nothing {N}.

(** ** Debouncing *)

Module Debounce.

Section Timer.

(** The arguments of the debounced function. *)
Variable A : Type.
Variable wait : Z.

(** The pending call: when it is due and its arguments. *)
Definition Slot : Type := option (Z * A).

(** Modelled from the spec: [debounce] is lodash's and is not among the
    sources.  The specification describes it as "a pending-call slot plus a
    fire-after-quiet-period timer" in which "only the last call within the
    window executes" and earlier ones are "discarded entirely (not queued)".
    [schedule] lists the calls in order, each with the time it is made at; a
    call takes the slot and is due [wait] later; the pending call executes if
    it is due when the next call is made, or if no call follows.  The result
    lists the executions: the time and the arguments. *)
Fixpoint run (slot : Slot) (schedule : list (Z * A)) : list (Z * A) :=
  match schedule with
  | [] =>
      match slot with
      | Some e => [e]
      | None => []
      end
  | (now, args) :: rest =>
      match slot with
      | Some (due, pending) =>
          if (due <=? now)%Z
          then (due, pending) :: run (Some (now + wait, args)%Z) rest
          else run (Some (now + wait, args)%Z) rest
      | None => run (Some (now + wait, args)%Z) rest
      end
  end.

Definition debounce (schedule : list (Z * A)) : list (Z * A) :=
  run None schedule.

(** Calls in order of time, each less than [wait] after the one before. *)
Fixpoint burst (schedule : list (Z * A)) : Prop :=
  match schedule with
  | [] => True
  | (t1, _) :: rest =>
      match rest with
      | [] => True
      | (t2, _) :: _ => (t1 <= t2 < t1 + wait)%Z /\ burst rest
      end
  end.

End Timer.

End Debounce.

Section Debounced.

Context {N : Type} `{JSNumber N}.
Variable DirectionsResult : Type.

(** [fetchLocations] (line 76): the async arrow, debounced by 500 ms.  From
    the calls made, each with its time and its [(lat, lng)], to the runs of
    the arrow that execute. *)
Definition fetchLocations (schedule : list (Z * (N * N)))
  : list (Z * Run N DirectionsResult) :=
  map (fun e => (fst e, fetchLocations_callback DirectionsResult
                          (fst (snd e)) (snd (snd e))))
      (Debounce.debounce 500 schedule).

(** The requests that the runs issue, in order: the downstream calls. *)
Definition downstream (runs : list (Z * Run N DirectionsResult)) : list (Request N) :=
  flat_map (fun e => requests (snd e)) runs.

End Debounced.

(** ** The places proxy ([route.ts]) *)

Module Route.

Local Open Scope string_scope.

(** [URLSearchParams.get]: the first value under the name, or null. *)
Fixpoint get (name : string) (searchParams : list (string * string)) : option string :=
  match searchParams with
  | [] => None
  | (n, v) :: rest => if String.eqb n name then Some v else get name rest
  end.

(** [!v] on a [string | null]: null and the empty string are falsy. *)
Definition falsy (v : option string) : bool :=
  match v with
  | None => true
  | Some s => String.eqb s ""
  end.

(** The words of a string between occurrences of a separator. *)
Fixpoint split (sep : ascii) (s : string) : list string :=
  match s with
  | EmptyString => [EmptyString]
  | String ch rest =>
      if Ascii.eqb ch sep then EmptyString :: split sep rest
      else match split sep rest with
           | w :: ws => String ch w :: ws
           | [] => [String ch EmptyString]
           end
  end.

Section Handler.

(** [response.data.results], relayed as it is. *)
Variable Results : Type.

(** The [params] of the upstream request (lines 20-25); [key] is the value of
    the environment variable, if it is set. *)
Record Params : Type := {
  location : string;
  radius : Z;
  type : string;
  key : option string
}.

Record AxiosRequest : Type := {
  url : string;
  params : Params
}.

(** How the try block ends: the request resolves and [results] is read, or
    something in it throws. *)
Inductive Upstream : Type :=
| resolves (results : Results)
| throws.

Inductive Body : Type :=
| error_body (error : string)
| results_body (results : Results).

Record NextResponse : Type := {
  body : Body;
  status : Z
}.

(** A run of the handler: it responds at once, or it sends the upstream
    request and responds once that has settled. *)
Inductive Handler : Type :=
| Respond (r : NextResponse)
| AxiosGet (req : AxiosRequest) (resume : Upstream -> NextResponse).

(** [GET] (lines 4-37), from the environment's key and the query of the
    request's URL. *)
Definition GET (NEXT_PUBLIC_GOOGLE_MAPS_KEY : option string)
               (searchParams : list (string * string)) : Handler :=
  let lat := get "lat" searchParams in
  let lng := get "lng" searchParams in
  if falsy lat || falsy lng then
    Respond {| body := error_body "Missing coordinates"; status := 400 |}
  else
    AxiosGet
      {| url := "https://maps.googleapis.com/maps/api/place/nearbysearch/json";
         params := {|
           location := match lat, lng with
                       | Some a, Some b => a ++ "," ++ b
                       | _, _ => ""
                       end;
           radius := 5000;
           type := "school|university|college|government_office ";
           key := NEXT_PUBLIC_GOOGLE_MAPS_KEY
         |} |}
      (fun upstream =>
         match upstream with
         | resolves results => {| body := results_body results; status := 200 |}
         | throws => {| body := error_body "Failed to fetch locations"; status := 500 |}
         end).

(** The upstream requests of a run and its response, given how the upstream
    request settles. *)
Definition contacted (h : Handler) : list AxiosRequest :=
  match h with
  | Respond _ => []
  | AxiosGet req _ => [req]
  end.

Definition response (h : Handler) (upstream : Upstream) : NextResponse :=
  match h with
  | Respond r => r
  | AxiosGet _ resume => resume upstream
  end.

End Handler.

Arguments throws {Results}.
Arguments error_body {Results} error.

End Route.

(** ** The page behind the proxy *)

Section EndToEnd.

Context {N : Type} `{JSNumber N}.

(** What [response.json()] gives the page for a response of the proxy whose
    results are an array of places when there are any ([Some]): the error
    object is JSON and no array. *)
Definition received (r : Route.NextResponse (option (list (PlaceResult N))))
  : Response N :=
  match Route.body r with
  | Route.error_body _ => json_other
  | Route.results_body (Some data) => json_places data
  | Route.results_body None => json_other
  end.

End EndToEnd.

(** ** Reading a run of setter calls *)

Section Calls.

Variables N DirectionsResult : Type.

(** The values [setLoading] is called with, in order. *)
Fixpoint loadingCalls (cs : list (SetState N DirectionsResult)) : list bool :=
  match cs with
  | [] => []
  | setLoading b :: rest => b :: loadingCalls rest
  | _ :: rest => loadingCalls rest
  end.

(** The messages [setError] is called with, in order. *)
Fixpoint errorCalls (cs : list (SetState N DirectionsResult)) : list string :=
  match cs with
  | [] => []
  | setError msg :: rest => msg :: errorCalls rest
  | _ :: rest => errorCalls rest
  end.

(** The lists [setLocations] is called with, in order. *)
Fixpoint locationsCalls (cs : list (SetState N DirectionsResult))
  : list (list (PlaceResult N)) :=
  match cs with
  | [] => []
  | setLocations l :: rest => l :: locationsCalls rest
  | _ :: rest => locationsCalls rest
  end.

End Calls.

(** ** Orders on places, at the extended reals *)

(** What the comparator compares. *)
Definition sortKey (p : PlaceResult xreal) : xreal := orInfinity (distance p).

Definition ordered (p q : PlaceResult xreal) : Prop :=
  XReal.le (sortKey p) (sortKey q).


(** The order of the specification: by [distance], a missing one last. *)
Definition distanceOrLast (p : PlaceResult xreal) : xreal :=
  match distance p with
  | Some d => d
  | None => PInf
  end.

Definition nondecreasing (p q : PlaceResult xreal) : Prop :=
  XReal.le (distanceOrLast p) (distanceOrLast q).

(** ** A sample of places *)

Definition place (lat0 lng0 : R) (name0 : string) : PlaceResult xreal := {|
  geometry := {| location := {| lat := Fin lat0; lng := Fin lng0 |} |};
  name := name0;
  vicinity := "";
  rating := None;
  distance := None
|}.

(** A place at the very position of the user, and one a kilometre east. *)
Definition atUser : PlaceResult xreal := place 19.076 72.8777 "here".
Definition nearby : PlaceResult xreal := place 19.076 72.8877 "east".

(** ** The haversine formula over the reals, as the specification writes it *)

Module Haversine.

Local Open Scope R_scope.

Definition radians (deg : R) : R := deg * PI / 180.

Definition a (lat1 lon1 lat2 lon2 : R) : R :=
  (sin ((radians lat2 - radians lat1) / 2))² +
  cos (radians lat1) * cos (radians lat2) *
  (sin ((radians lon2 - radians lon1) / 2))².

Definition c (lat1 lon1 lat2 lon2 : R) : R :=
  2 * XReal.angle (sqrt (a lat1 lon1 lat2 lon2)) (sqrt (1 - a lat1 lon1 lat2 lon2)).

Definition distanceKm (lat1 lon1 lat2 lon2 : R) : R :=
  6371 * c lat1 lon1 lat2 lon2.

End Haversine.

(** * Facts *)

(** ** Arithmetic of the extended reals *)

Section XRealFacts.

Local Open Scope R_scope.

Lemma sign_pos (r : R) : 0 < r -> XReal.sign r = Gt.
Proof.
  intros Hr. unfold XReal.sign.
  destruct (Rcompare_spec r 0); [lra | lra | reflexivity].
Qed.

Lemma sign_neg (r : R) : r < 0 -> XReal.sign r = Lt.
Proof.
  intros Hr. unfold XReal.sign.
  destruct (Rcompare_spec r 0); [lra | reflexivity | lra].
Qed.

Lemma sign_zero : XReal.sign 0 = Eq.
Proof.
  unfold XReal.sign. destruct (Rcompare_spec 0 0); [reflexivity | lra | lra].
Qed.

Lemma sign_nonneg (r : R) : 0 <= r -> XReal.sign r <> Lt.
Proof.
  intros Hr. unfold XReal.sign.
  destruct (Rcompare_spec r 0); [discriminate | lra | discriminate].
Qed.

Lemma div_Fin (x y : R) : 0 < y -> XReal.div (Fin x) (Fin y) = Fin (x / y).
Proof. intros Hy. unfold XReal.div. now rewrite (sign_pos Hy). Qed.

Lemma sqrt_Fin (x : R) : 0 <= x -> XReal.sqrt (Fin x) = Fin (sqrt x).
Proof.
  intros Hx. unfold XReal.sqrt.
  pose proof (sign_nonneg Hx). now destruct (XReal.sign x).
Qed.

End XRealFacts.

Section XRealOrder.

Local Open Scope R_scope.

Lemma gt0_Fin (r : R) : XReal.gt0 (Fin r) = true <-> 0 < r.
Proof.
  unfold XReal.gt0, XReal.sign.
  destruct (Rcompare_spec r 0); split; intros; try lra; try discriminate; reflexivity.
Qed.


Lemma le_trans (x y z : xreal) : XReal.le x y -> XReal.le y z -> XReal.le x z.
Proof. destruct x, y, z; simpl; try tauto; intros; lra. Qed.

Lemma eqb_eq (x y : xreal) : XReal.eqb x y = true -> x = y.
Proof.
  destruct x as [a| | |], y as [b| | |]; simpl; try discriminate; try reflexivity.
  destruct (Req_dec_T a b); [now subst | discriminate].
Qed.

(** The sign of a difference of two numbers that are not NaN tells their
    order. *)
Lemma positive_sub (x y : xreal) :
  XReal.is_nan x = false -> XReal.is_nan y = false ->
  if XReal.gt0 (XReal.sub x y) then XReal.le y x /\ ~ XReal.le x y else XReal.le x y.
Proof.
  destruct x as [a| | |], y as [b| | |]; cbn [XReal.is_nan]; try discriminate;
    intros _ _; try (simpl; tauto).
  change (XReal.sub (Fin a) (Fin b)) with (Fin (a + - b)).
  destruct (XReal.gt0 (Fin (a + - b))) eqn:E; cbn [XReal.le].
  - apply gt0_Fin in E. split; [lra | intros Hab; lra].
  - destruct (Rle_dec a b) as [Hle|Hn]; [assumption|].
    assert (Hp : 0 < a + - b) by lra. apply gt0_Fin in Hp. congruence.
Qed.

Lemma xsin_not_finite (x : xreal) : XReal.finite x = false -> XReal.sin x = NaN.
Proof. now destruct x. Qed.

Lemma xsub_not_finite (x y : xreal) :
  XReal.finite x = false \/ XReal.finite y = false ->
  XReal.finite (XReal.sub x y) = false.
Proof. destruct x, y; simpl; intuition congruence. Qed.

Lemma xmul_not_finite (x y : xreal) :
  XReal.finite x = false -> XReal.finite (XReal.mul x y) = false.
Proof.
  destruct x, y; simpl; try congruence; intros _; unfold XReal.scale;
    now destruct (XReal.sign _).
Qed.

Lemma xdiv_not_finite (x : xreal) (r : R) :
  XReal.finite x = false -> XReal.finite (XReal.div x (Fin r)) = false.
Proof.
  destruct x; simpl; try congruence; intros _; now destruct (XReal.sign _).
Qed.

Lemma mul_NaN_r (x : xreal) : XReal.mul x NaN = NaN.
Proof. now destruct x. Qed.

Lemma add_NaN_r (x : xreal) : XReal.add x NaN = NaN.
Proof. now destruct x. Qed.

Lemma angle_positive (y x : R) : 0 < y -> 0 <= x -> 0 < XReal.angle y x.
Proof.
  intros Hy Hx. unfold XReal.angle. pose proof PI_RGT_0 as Hpi.
  destruct (Rle_lt_or_eq_dec 0 x Hx) as [Hx' | <-].
  - rewrite (sign_pos Hx').
    assert (Hq : 0 < y / x) by (apply Rdiv_lt_0_compat; assumption).
    pose proof (atan_increasing _ _ Hq) as Hi. now rewrite atan_0 in Hi.
  - rewrite sign_zero, (sign_pos Hy). lra.
Qed.

End XRealOrder.

(** ** The distance calculator *)

Section DistanceFacts.

Local Open Scope R_scope.

(** The haversine term lies between 0 and 1 whatever the coordinates: it is a
    mean of [(1 - cos (v - u)) / 2] and [(1 + cos (v + u)) / 2]. *)
Lemma a_bounds (lat1 lon1 lat2 lon2 : R) :
  0 <= Haversine.a lat1 lon1 lat2 lon2 <= 1.
Proof.
  unfold Haversine.a, Rsqr.
  set (u := Haversine.radians lat1). set (v := Haversine.radians lat2).
  set (h := sin ((Haversine.radians lon2 - Haversine.radians lon1) / 2)).
  assert (Hs : sin ((v - u) / 2) * sin ((v - u) / 2) = (1 - cos (v - u)) / 2).
  { pose proof (cos_2a_sin ((v - u) / 2)) as E.
    replace (2 * ((v - u) / 2)) with (v - u) in E by lra. lra. }
  rewrite Hs.
  pose proof (cos_minus v u) as Em. pose proof (cos_plus v u) as Ep.
  pose proof (COS_bound (v - u)) as Bm. pose proof (COS_bound (v + u)) as Bp.
  pose proof (SIN_bound ((Haversine.radians lon2 - Haversine.radians lon1) / 2)) as Bh.
  fold h in Bh.
  assert (H0 : 0 <= h * h) by nra.
  assert (H1 : h * h <= 1) by nra.
  set (k := h * h) in *.
  replace (cos u * cos v * k) with (k * (cos v * cos u)) by ring.
  assert (Hpq : cos v * cos u = (cos (v - u) + cos (v + u)) / 2) by lra.
  rewrite Hpq.
  split; nra.
Qed.

Lemma a_same_point (lat0 lon0 : R) : Haversine.a lat0 lon0 lat0 lon0 = 0.
Proof.
  unfold Haversine.a.
  replace ((Haversine.radians lat0 - Haversine.radians lat0) / 2) with 0 by lra.
  replace ((Haversine.radians lon0 - Haversine.radians lon0) / 2) with 0 by lra.
  rewrite sin_0. unfold Rsqr. ring.
Qed.

(** Two points on one parallel, off the poles and less than a full turn
    apart, have a positive haversine term. *)
Lemma a_same_latitude (lat0 lon1 lon2 : R) :
  -90 < lat0 < 90 -> 0 < lon2 - lon1 < 360 ->
  0 < Haversine.a lat0 lon1 lat0 lon2.
Proof.
  intros Hlat Hlon. unfold Haversine.a, Haversine.radians, Rsqr.
  pose proof PI_RGT_0 as Hpi.
  replace ((lat0 * PI / 180 - lat0 * PI / 180) / 2) with 0 by lra.
  rewrite sin_0.
  assert (Hc : 0 < cos (lat0 * PI / 180)) by (apply cos_gt_0; nra).
  assert (Hs : 0 < sin ((lon2 * PI / 180 - lon1 * PI / 180) / 2))
    by (apply sin_gt_0; nra).
  rewrite Rmult_0_l, Rplus_0_l.
  repeat apply Rmult_lt_0_compat; assumption.
Qed.

(** On finite numbers the source computes the formula of the specification. *)
Lemma calculateDistance_Fin (lat1 lon1 lat2 lon2 : R) :
  calculateDistance (Fin lat1) (Fin lon1) (Fin lat2) (Fin lon2)
  = Fin (Haversine.distanceKm lat1 lon1 lat2 lon2).
Proof.
  pose proof (a_bounds lat1 lon1 lat2 lon2) as Ha.
  unfold calculateDistance.
  cbn [lit js_sub js_mul js_div js_add Math_PI Math_sin Math_cos Math_sqrt Math_atan2
       xreal_number XReal.sub XReal.add XReal.neg XReal.mul XReal.sin XReal.cos].
  rewrite !div_Fin by lra.
  cbn [XReal.sin XReal.cos XReal.mul XReal.add XReal.neg].
  assert (E1 : (lat2 + - lat1) * PI / 180 / 2
               = (Haversine.radians lat2 - Haversine.radians lat1) / 2)
    by (unfold Haversine.radians; lra).
  assert (E2 : (lon2 + - lon1) * PI / 180 / 2
               = (Haversine.radians lon2 - Haversine.radians lon1) / 2)
    by (unfold Haversine.radians; lra).
  rewrite E1, E2. fold (Haversine.radians lat1) (Haversine.radians lat2).
  match goal with
  | |- context [XReal.sqrt (Fin ?e)] =>
      replace e with (Haversine.a lat1 lon1 lat2 lon2)
        by (unfold Haversine.a, Rsqr; ring)
  end.
  fold (1 - Haversine.a lat1 lon1 lat2 lon2).
  rewrite !sqrt_Fin by lra.
  reflexivity.
Qed.

Lemma distanceKm_same_point (lat0 lon0 : R) :
  Haversine.distanceKm lat0 lon0 lat0 lon0 = 0.
Proof.
  unfold Haversine.distanceKm, Haversine.c. rewrite a_same_point.
  replace (1 - 0) with 1 by lra. rewrite sqrt_0, sqrt_1.
  unfold XReal.angle. rewrite (sign_pos Rlt_0_1).
  replace (0 / 1) with 0 by lra. rewrite atan_0. lra.
Qed.

Lemma distanceKm_positive (lat1 lon1 lat2 lon2 : R) :
  0 < Haversine.a lat1 lon1 lat2 lon2 ->
  0 < Haversine.distanceKm lat1 lon1 lat2 lon2.
Proof.
  intros Ha. unfold Haversine.distanceKm, Haversine.c.
  pose proof (angle_positive (sqrt_lt_R0 _ Ha)
                (sqrt_pos (1 - Haversine.a lat1 lon1 lat2 lon2))).
  lra.
Qed.

(** A coordinate that is NaN or infinite makes the distance NaN. *)
Lemma calculateDistance_not_finite (lat1 lon1 lat2 lon2 : xreal) :
  XReal.finite lat1 && XReal.finite lon1 && XReal.finite lat2 && XReal.finite lon2
  = false ->
  calculateDistance lat1 lon1 lat2 lon2 = NaN.
Proof.
  intros Hnf. unfold calculateDistance.
  cbn [lit js_sub js_mul js_div js_add Math_PI Math_sin Math_cos Math_sqrt Math_atan2
       xreal_number].
  assert (Ha : forall s1 s2 t : xreal,
             s1 = NaN \/ s2 = NaN ->
             XReal.add (XReal.mul s1 s1) (XReal.mul (XReal.mul t s2) s2) = NaN).
  { intros s1 s2 t [-> | ->]; [reflexivity | now rewrite !mul_NaN_r, add_NaN_r]. }
  rewrite Ha; [reflexivity|].
  assert (Hd : forall x y : xreal,
             XReal.finite x = false \/ XReal.finite y = false ->
             XReal.sin (XReal.div (XReal.div (XReal.mul (XReal.sub y x) (Fin PI))
                                    (Fin (IZR 180))) (Fin (IZR 2))) = NaN).
  { intros x y Hxy. apply xsin_not_finite, xdiv_not_finite, xdiv_not_finite,
      xmul_not_finite, xsub_not_finite. tauto. }
  destruct (XReal.finite lat1) eqn:E1; [|left; apply Hd; tauto].
  destruct (XReal.finite lat2) eqn:E2; [|left; apply Hd; tauto].
  destruct (XReal.finite lon1) eqn:E3; [|right; apply Hd; tauto].
  destruct (XReal.finite lon2) eqn:E4; [|right; apply Hd; tauto].
  discriminate Hnf.
Qed.

End DistanceFacts.

Module DoubleFacts.

Import Floats.
Import Double.
Local Open Scope float_scope.

(** *** The specification of binary64: signs and exchanges *)

Section FloatSpec.
Variables prec emax : Z.

Lemma binary_round_aux_opp (s : bool) (m e : Z) (l : SpecFloat.location) :
  binary_round_aux prec emax (negb s) m e l
  = SFopp (binary_round_aux prec emax s m e l).
Proof.
  unfold binary_round_aux.
  destruct (shr_fexp prec emax m e l) as [mrs' e'].
  destruct (shr_fexp prec emax _ e' loc_Exact) as [mrs'' e''].
  destruct (shr_m mrs''); try reflexivity.
  now destruct (Z.leb e'' (emax - prec)).
Qed.

Lemma SFopp_involutive (x : spec_float) : SFopp (SFopp x) = x.
Proof. destruct x; cbn; now rewrite ?negb_involutive. Qed.

Lemma binary_normalize_opp (m e : Z) :
  m <> 0%Z ->
  binary_normalize prec emax (- m) e false
  = SFopp (binary_normalize prec emax m e false).
Proof.
  destruct m as [|p|p]; [contradiction| |]; intros _; cbn [Z.opp binary_normalize];
    unfold binary_round; destruct (shl_align _ _ _) as [mz ez].
  - apply (binary_round_aux_opp false).
  - change true with (negb false).
    now rewrite binary_round_aux_opp, SFopp_involutive.
Qed.

Lemma SFmul_opp_l (x y : spec_float) :
  SFmul prec emax (SFopp x) y = SFopp (SFmul prec emax x y).
Proof.
  destruct x as [sx|sx| |sx mx ex], y as [sy|sy| |sy my ey]; cbn [SFopp SFmul];
    try reflexivity; try (now destruct sx, sy).
  replace (xorb (negb sx) sy) with (negb (xorb sx sy)) by now destruct sx, sy.
  apply binary_round_aux_opp.
Qed.

Lemma SFmul_comm (x y : spec_float) : SFmul prec emax x y = SFmul prec emax y x.
Proof.
  destruct x as [sx|sx| |sx mx ex], y as [sy|sy| |sy my ey]; cbn [SFmul];
    try reflexivity; try (now rewrite xorb_comm).
  now rewrite xorb_comm, Pos.mul_comm, Z.add_comm.
Qed.

Lemma SFdiv_opp_l (x y : spec_float) :
  SFdiv prec emax (SFopp x) y = SFopp (SFdiv prec emax x y).
Proof.
  destruct x as [sx|sx| |sx mx ex], y as [sy|sy| |sy my ey]; cbn [SFopp SFdiv];
    try reflexivity; try (now destruct sx, sy).
  destruct (SFdiv_core_binary prec emax (Z.pos mx) ex (Z.pos my) ey) as [[mz ez] lz].
  replace (xorb (negb sx) sy) with (negb (xorb sx sy)) by now destruct sx, sy.
  apply binary_round_aux_opp.
Qed.

Lemma SFsub_anti (x y : spec_float) :
  SFsub prec emax y x = SFopp (SFsub prec emax x y)
  \/ (SFsub prec emax x y = S754_zero false /\ SFsub prec emax y x = S754_zero false).
Proof.
  destruct x as [sx|sx| |sx mx ex], y as [sy|sy| |sy my ey]; cbn [SFopp SFsub];
    try (left; reflexivity);
    try (destruct sx, sy; (left; reflexivity) || (right; split; reflexivity)).
  rewrite (Z.min_comm ey ex).
  set (ez := Z.min ex ey).
  set (zx := cond_Zopp sx (Z.pos (fst (shl_align mx ex ez)))).
  set (zy := cond_Zopp sy (Z.pos (fst (shl_align my ey ez)))).
  destruct (Z.eq_dec (zx - zy) 0) as [E|E].
  - right. replace (zy - zx)%Z with 0%Z by lia. rewrite E. now split.
  - left. replace (zy - zx)%Z with (- (zx - zy))%Z by lia.
    now apply binary_normalize_opp.
Qed.

Lemma SFabs_opp (x : spec_float) : SFabs (SFopp x) = SFabs x.
Proof. now destruct x. Qed.

Lemma SFeqb_refl (x : spec_float) : x <> S754_nan -> SFeqb x x = true.
Proof.
  destruct x as [s|s| |s m e]; intros Hx; try contradiction; unfold SFeqb; cbn [SFcompare].
  - reflexivity.
  - now destruct s.
  - rewrite Z.compare_refl, Pos.compare_cont_refl. now destruct s.
Qed.

End FloatSpec.

(** *** Doubles *)

Lemma Prim2SF_nan : Prim2SF nan = S754_nan.
Proof. reflexivity. Qed.

Lemma opp_involutive (x : float) : - - x = x.
Proof. apply Prim2SF_inj. now rewrite !opp_spec, SFopp_involutive. Qed.

Lemma mul_opp_l (x y : float) : (- x) * y = - (x * y).
Proof.
  apply Prim2SF_inj. rewrite opp_spec, !mul_spec, opp_spec. apply SFmul_opp_l.
Qed.

Lemma mul_comm (x y : float) : x * y = y * x.
Proof. apply Prim2SF_inj. rewrite !mul_spec. apply SFmul_comm. Qed.

Lemma mul_opp_r (x y : float) : x * (- y) = - (x * y).
Proof. now rewrite (mul_comm x (- y)), mul_opp_l, (mul_comm y x). Qed.

Lemma div_opp_l (x y : float) : (- x) / y = - (x / y).
Proof.
  apply Prim2SF_inj. rewrite opp_spec, !div_spec, opp_spec. apply SFdiv_opp_l.
Qed.

Lemma sub_anti (x y : float) : y - x = - (x - y) \/ (x - y = 0 /\ y - x = 0).
Proof.
  destruct (SFsub_anti prec emax (Prim2SF x) (Prim2SF y)) as [E | [E1 E2]].
  - left. apply Prim2SF_inj. now rewrite opp_spec, !sub_spec.
  - right. split; apply Prim2SF_inj; rewrite sub_spec; assumption.
Qed.

Lemma abs_opp (x : float) : abs (- x) = abs x.
Proof. apply Prim2SF_inj. now rewrite !abs_spec, opp_spec, SFabs_opp. Qed.


Lemma is_nan_opp (x : float) : is_nan (- x) = is_nan x.
Proof.
  unfold is_nan. rewrite !eqb_spec, opp_spec.
  destruct (Prim2SF x) as [s|s| |s m e]; try reflexivity.
  all: now rewrite !SFeqb_refl by discriminate.
Qed.

Lemma is_finite_opp (x : float) : is_finite (- x) = is_finite x.
Proof. unfold is_finite, is_infinity. now rewrite is_nan_opp, abs_opp. Qed.


Lemma add_nan_l (x : float) : nan + x = nan.
Proof. apply Prim2SF_inj. rewrite add_spec. reflexivity. Qed.

Lemma mul_nan_r (x : float) : x * nan = nan.
Proof.
  apply Prim2SF_inj. rewrite mul_spec, Prim2SF_nan. now destruct (Prim2SF x).
Qed.

Lemma sampled_odd : odd_sine sampled.
Proof.
  intros x. cbn [engine_sin sampled]. unfold sampled_sin.
  rewrite is_finite_opp, abs_opp.
  destruct (is_finite x); [|reflexivity].
  destruct (abs x =? 0x1.86f4291ecf2f3p+0).
  - now rewrite div_opp_l, mul_opp_l.
  - destruct (abs x =? 0x1.921fb54442d18p+0); [apply div_opp_l | reflexivity].
Qed.

(** *** The distance calculator in doubles *)

(** With latitudes 2^1023 and -2^1023, both finite doubles, the difference
    overflows to an infinity, whose sine is NaN on every engine. *)
Lemma calculateDistance_overflow (E : Engine) :
  @calculateDistance float (float_number E) 0x1p+1023 0 (-0x1p+1023) 0 = nan.
Proof.
  unfold calculateDistance.
  cbn [lit js_sub js_mul js_div js_add Math_PI Math_sin Math_cos Math_sqrt Math_atan2
       float_number].
  set (dLat := (-0x1p+1023 - 0x1p+1023) * 0x1.921fb54442d18p+1 / of_Z 180 / of_Z 2).
  assert (HdLat : is_finite dLat = false) by (vm_compute; reflexivity).
  rewrite (sin_not_finite E dLat HdLat).
  change (nan * nan) with nan.
  rewrite add_nan_l.
  change (sqrt nan) with nan.
  rewrite atan2_nan_l.
  reflexivity.
Qed.

Lemma calculateDistance_overflow_back (E : Engine) :
  @calculateDistance float (float_number E) (-0x1p+1023) 0 0x1p+1023 0 = nan.
Proof.
  unfold calculateDistance.
  cbn [lit js_sub js_mul js_div js_add Math_PI Math_sin Math_cos Math_sqrt Math_atan2
       float_number].
  set (dLat := (0x1p+1023 - -0x1p+1023) * 0x1.921fb54442d18p+1 / of_Z 180 / of_Z 2).
  assert (HdLat : is_finite dLat = false) by (vm_compute; reflexivity).
  rewrite (sin_not_finite E dLat HdLat).
  change (nan * nan) with nan.
  rewrite add_nan_l.
  change (sqrt nan) with nan.
  rewrite atan2_nan_l.
  reflexivity.
Qed.




Section Symmetry.

Variable E : Engine.
Hypothesis Hodd : odd_sine E.

Lemma half_opp (d : float) : half (- d) = - half d.
Proof. unfold half. now rewrite mul_opp_l, !div_opp_l. Qed.

Lemma sin_half_either (d d' : float) :
  d' = - d \/ d' = d ->
  engine_sin E (half d') = - engine_sin E (half d)
  \/ engine_sin E (half d') = engine_sin E (half d).
Proof.
  intros [-> | ->]; [left | right; reflexivity].
  now rewrite half_opp, Hodd.
Qed.

Lemma square_either (p s s' : float) :
  s' = - s \/ s' = s -> p * s' * s' = p * s * s /\ s' * s' = s * s.
Proof.
  intros [-> | ->]; [|now split].
  split.
  - now rewrite !mul_opp_r, !mul_opp_l, opp_involutive.
  - now rewrite !mul_opp_r, !mul_opp_l, opp_involutive.
Qed.

Lemma difference_either (x y : float) : y - x = - (x - y) \/ y - x = x - y.
Proof.
  destruct (sub_anti x y) as [H | [H1 H2]]; [now left | right; congruence].
Qed.

(** C9, as amended.  In doubles, on an engine whose sine is odd,
    [calculateDistance] gives the same value when the two points are
    exchanged: the same number, or NaN both ways. *)
Theorem symmetric_on_odd_sine (lat1 lon1 lat2 lon2 : float) :
  @calculateDistance float (float_number E) lat1 lon1 lat2 lon2
  = @calculateDistance float (float_number E) lat2 lon2 lat1 lon1.
Proof.
  unfold calculateDistance.
  cbn [lit js_sub js_mul js_div js_add Math_PI Math_sin Math_cos Math_sqrt Math_atan2
       float_number].
  fold (half (lat2 - lat1)) (half (lon2 - lon1)) (half (lat1 - lat2)) (half (lon1 - lon2)).
  destruct (square_either 1 (sin_half_either (difference_either lat2 lat1))) as [_ ->].
  set (p := engine_cos E (lat1 * 0x1.921fb54442d18p+1 / of_Z 180)
            * engine_cos E (lat2 * 0x1.921fb54442d18p+1 / of_Z 180)).
  rewrite (mul_comm (engine_cos E (lat2 * 0x1.921fb54442d18p+1 / of_Z 180))). fold p.
  destruct (square_either p (sin_half_either (difference_either lon2 lon1))) as [-> _].
  reflexivity.
Qed.

End Symmetry.

(** C9, the counterexample.  The two distances are not always equal under
    [==]: they are NaN both ways, and NaN equals nothing, at 2^1023 and
    -2^1023 for latitudes on every engine, and at the valid coordinates
    (-87.5, 0) and (87.5, 180) with the correctly rounded sine and cosine. *)
Lemma NaN_distance_not_equal :
  (forall E : Engine,
      (@calculateDistance float (float_number E) 0x1p+1023 0 (-0x1p+1023) 0
       =? @calculateDistance float (float_number E) (-0x1p+1023) 0 0x1p+1023 0) = false)
  /\ (@calculateDistance float (float_number sampled) (-87.5) 0 87.5 180
      =? @calculateDistance float (float_number sampled) 87.5 180 (-87.5) 0) = false.
Proof.
  split; [|vm_compute; reflexivity].
  intros E. now rewrite calculateDistance_overflow, calculateDistance_overflow_back.
Qed.

(** C9, at a sample: two points a few kilometres apart, on an engine with an
    odd sine. *)
Lemma symmetric_on_odd_sine_sample :
  odd_sine sampled
  /\ @calculateDistance float (float_number sampled) 19.125 72.875 19.25 73
     = @calculateDistance float (float_number sampled) 19.25 73 19.125 72.875.
Proof.
  split; [exact sampled_odd|].
  apply (symmetric_on_odd_sine sampled_odd 19.125 72.875 19.25 73).
Defined.

End DoubleFacts.

(** ** Sorting *)

Section SortAny.

Context {N : Type} `{JSNumber N}.
Variable A : Type.
Variable compare : A -> A -> N.

Lemma insert_perm (x : A) (l : list A) : Permutation (insert compare x l) (x :: l).
Proof.
  induction l as [|y l IH]; cbn [insert]; [reflexivity|].
  destruct (positive (compare x y)); [|reflexivity].
  rewrite IH. apply perm_swap.
Qed.

Lemma Array_sort_perm (l : list A) : Permutation (Array_sort compare l) l.
Proof.
  induction l as [|x l IH]; [reflexivity|].
  cbn [Array_sort fold_right]. fold (Array_sort compare l).
  rewrite insert_perm. now constructor.
Qed.

End SortAny.

Section SortByDistance.

Lemma sortKey_not_NaN (p : PlaceResult xreal) : XReal.is_nan (sortKey p) = false.
Proof.
  unfold sortKey, orInfinity. destruct (distance p) as [v|]; [|reflexivity].
  destruct (truthy v) eqn:E; [|reflexivity]. now destruct v.
Qed.

(** The comparator asks for an exchange exactly when the first key is the
    larger one. *)
Lemma byDistance_sign (p q : PlaceResult xreal) :
  if positive (byDistance p q) then ordered q p /\ ~ ordered p q else ordered p q.
Proof. apply positive_sub; apply sortKey_not_NaN. Qed.

Lemma insert_sorted (x : PlaceResult xreal) (l : list (PlaceResult xreal)) :
  StronglySorted ordered l -> StronglySorted ordered (insert byDistance x l).
Proof.
  induction 1 as [|y l Hl IH Hy]; cbn [insert].
  - repeat constructor.
  - pose proof (byDistance_sign x y) as Hs.
    destruct (positive (byDistance x y)).
    + constructor; [exact IH|].
      apply (Permutation_Forall (Permutation_sym (insert_perm byDistance x l))).
      constructor; [apply Hs | exact Hy].
    + constructor; [now constructor|].
      constructor; [exact Hs|].
      eapply Forall_impl; [|exact Hy]. intros z Hz. exact (@le_trans _ _ _ Hs Hz).
Qed.

Lemma Array_sort_sorted (l : list (PlaceResult xreal)) :
  StronglySorted ordered (Array_sort byDistance l).
Proof.
  induction l as [|x l IH]; [constructor|].
  cbn [Array_sort fold_right]. now apply insert_sorted.
Qed.


Lemma withDistance_distance (lat0 lng0 : xreal) (p : PlaceResult xreal) :
  distance (withDistance lat0 lng0 p)
  = Some (calculateDistance lat0 lng0 (lat (location (geometry p)))
                                      (lng (location (geometry p)))).
Proof. reflexivity. Qed.

End SortByDistance.

Section SortClaims.

Local Open Scope R_scope.

Lemma orInfinity_zero : orInfinity (Some (Fin 0)) = PInf.
Proof.
  unfold orInfinity. cbn [truthy xreal_number XReal.to_boolean].
  now rewrite sign_zero.
Qed.

Lemma orInfinity_nonzero (d : R) : d <> 0 -> orInfinity (Some (Fin d)) = Fin d.
Proof.
  intros Hd. unfold orInfinity. cbn [truthy xreal_number XReal.to_boolean].
  unfold XReal.sign. destruct (Rcompare_spec d 0); [contradiction | |]; reflexivity.
Qed.

Lemma nearby_distance :
  0 < Haversine.distanceKm 19.076 72.8777 19.076 72.8877.
Proof. apply distanceKm_positive, a_same_latitude; lra. Qed.

(** C1, at the failing input.  The user is at (19.076, 72.8777); the proxy
    returns a place at that very position and then one a kilometre east.  The
    place at distance 0 comes out last, behind the one at a positive
    distance: the list is not in non-decreasing order of distance. *)
Theorem zero_distance_sorts_last :
  (exists d : R,
      0 < d /\
      map (@distance xreal)
          (locationsWithDistance (Fin 19.076) (Fin 72.8777) [atUser; nearby])
      = [Some (Fin d); Some (Fin 0)])
  /\ ~ StronglySorted nondecreasing
         (locationsWithDistance (Fin 19.076) (Fin 72.8777) [atUser; nearby]).
Proof.
  pose proof nearby_distance as Hd.
  set (user_lat := Fin 19.076). set (user_lng := Fin 72.8777).
  assert (Hhere : distance (withDistance user_lat user_lng atUser) = Some (Fin 0)).
  { rewrite withDistance_distance. unfold atUser, place, user_lat, user_lng.
    cbn [lat lng location geometry].
    now rewrite calculateDistance_Fin, distanceKm_same_point. }
  assert (Heast : distance (withDistance user_lat user_lng nearby)
                  = Some (Fin (Haversine.distanceKm 19.076 72.8777 19.076 72.8877))).
  { rewrite withDistance_distance. unfold nearby, place, user_lat, user_lng.
    cbn [lat lng location geometry].
    now rewrite calculateDistance_Fin. }
  assert (Hout : locationsWithDistance user_lat user_lng [atUser; nearby]
                 = [withDistance user_lat user_lng nearby;
                    withDistance user_lat user_lng atUser]).
  { unfold locationsWithDistance. cbn [map Array_sort fold_right insert].
    unfold byDistance at 1. rewrite Hhere, Heast, orInfinity_zero.
    rewrite orInfinity_nonzero by lra. reflexivity. }
  rewrite Hout. split.
  - eexists. split; [exact Hd|]. cbn [map]. now rewrite Hhere, Heast.
  - intros Hs. inversion Hs as [|p l _ Hall]; subst.
    inversion Hall as [|q l' Hle _]; subst.
    unfold nondecreasing, distanceOrLast in Hle. rewrite Hhere, Heast in Hle.
    cbn [XReal.le] in Hle. lra.
Qed.

End SortClaims.

(** ** The location fetcher *)

Lemma last_cons (A : Type) (x d : A) (l : list A) : last (x :: l) d = last l x.
Proof.
  revert x d. induction l as [|y l IH]; intros x d; [reflexivity|].
  change (last (x :: y :: l) d) with (last (y :: l) d).
  now rewrite !IH.
Qed.

Section FetcherClaims.

Context {N : Type} `{JSNumber N}.
Variable DirectionsResult : Type.

Local Open Scope string_scope.




(** C4.  When the request is issued and the transport fails, the body is not
    JSON, or the JSON is no array of places, the arrow reports the one error
    "Failed to fetch locations.", never calls [setLocations], and leaves the
    published list as it was. *)
Theorem failed_fetch_reports_once
    (lat0 lng0 : N) (settled : Response N) (s : State N DirectionsResult) :
  isNaN lat0 || isNaN lng0 = false ->
  settled = fetch_rejects \/ settled = json_rejects \/ settled = json_other ->
  errorCalls (calls (fetchLocations_callback DirectionsResult lat0 lng0) settled) = ["Failed to fetch locations."]
  /\ locationsCalls (calls (fetchLocations_callback DirectionsResult lat0 lng0) settled) = []
  /\ locations (after (calls (fetchLocations_callback DirectionsResult lat0 lng0) settled) s) = locations s.
Proof.
  intros Hnum Hfail. unfold fetchLocations_callback. rewrite Hnum.
  destruct Hfail as [-> | [-> | ->]]; repeat split.
Qed.

(** C7, as amended.  A run of the arrow with a NaN coordinate never calls
    [setLoading].  Any other run calls it exactly twice: with [true] before
    the request is issued, and with [false] as its last setter call once the
    request has settled, whatever the outcome; the flag is then [false]. *)
Theorem loading_toggles_once
    (lat0 lng0 : N) (settled : Response N) (s : State N DirectionsResult) :
  if isNaN lat0 || isNaN lng0 then
    loadingCalls (calls (fetchLocations_callback DirectionsResult lat0 lng0) settled) = []
  else
    loadingCalls (calls (fetchLocations_callback DirectionsResult lat0 lng0) settled) = [true; false]
    /\ (exists req resume,
           fetchLocations_callback DirectionsResult lat0 lng0 = Await [setLoading true] req resume
           /\ last (resume settled) (setLoading true) = setLoading false)
    /\ loading (after (calls (fetchLocations_callback DirectionsResult lat0 lng0) settled) s) = false.
Proof.
  unfold fetchLocations_callback.
  destruct (isNaN lat0 || isNaN lng0); [reflexivity|].
  split; [|split].
  - now destruct settled.
  - eexists _, _. split; [reflexivity|]. now destruct settled.
  - now destruct settled.
Qed.

Lemma run_burst (A : Type) (t0 : Z) (a0 : A) (rest : list (Z * A)) :
  Debounce.burst 500 ((t0, a0) :: rest) ->
  Debounce.run 500 (Some ((t0 + 500)%Z, a0)) rest
  = [((fst (last rest (t0, a0)) + 500)%Z, snd (last rest (t0, a0)))].
Proof.
  revert t0 a0. induction rest as [|[t1 a1] rest IH]; intros t0 a0 Hb.
  - reflexivity.
  - cbn [Debounce.run]. destruct Hb as [Hgap Hb].
    destruct (Z.leb_spec (t0 + 500) t1) as [Hle|_]; [lia|].
    rewrite (IH t1 a1 Hb). now rewrite last_cons.
Qed.

(** C6, as amended.  Calls of [fetchLocations] that each come less than
    500 ms after the one before lead to one run of the arrow, 500 ms after the
    last call and with the arguments of the last call.  That run issues the
    one downstream request, for [/api/places] with those arguments, unless
    one of them is NaN: then no downstream request is issued at all. *)
Theorem burst_issues_last_request
    (first : Z * (N * N)) (rest : list (Z * (N * N))) :
  Debounce.burst 500 (first :: rest) ->
  fetchLocations DirectionsResult (first :: rest)
  = [((fst (last rest first) + 500)%Z,
      fetchLocations_callback DirectionsResult
        (fst (snd (last rest first))) (snd (snd (last rest first))))]
  /\ downstream (fetchLocations DirectionsResult (first :: rest))
     = if isNaN (fst (snd (last rest first))) || isNaN (snd (snd (last rest first)))
       then []
       else [{| path := "/api/places";
                query := [("lat", fst (snd (last rest first)));
                          ("lng", snd (snd (last rest first)))] |}].
Proof.
  intros Hb.
  assert (Hruns : fetchLocations DirectionsResult (first :: rest)
                  = [((fst (last rest first) + 500)%Z,
                      fetchLocations_callback DirectionsResult
                        (fst (snd (last rest first))) (snd (snd (last rest first))))]).
  { unfold fetchLocations, Debounce.debounce.
    destruct first as [t0 a0]. cbn [Debounce.run].
    now rewrite (run_burst t0 a0 rest Hb). }
  split; [exact Hruns|].
  rewrite Hruns. unfold downstream. cbn [flat_map snd]. rewrite app_nil_r.
  unfold fetchLocations_callback.
  now destruct (isNaN (fst (snd (last rest first))) || isNaN (snd (snd (last rest first)))).
Qed.

End FetcherClaims.



(** C4, at a sample: the transport fails while a list is on display. *)
Lemma failed_fetch_reports_once_sample :
  errorCalls (calls (fetchLocations_callback unit (Fin 19.076) (Fin 72.8777))
                    fetch_rejects)
  = ["Failed to fetch locations."%string]
  /\ locationsCalls (calls (fetchLocations_callback unit (Fin 19.076) (Fin 72.8777))
                           fetch_rejects) = []
  /\ locations (after (calls (fetchLocations_callback unit (Fin 19.076) (Fin 72.8777))
                             fetch_rejects)
                      (set (setLocations [nearby]) (initial xreal unit)))
     = [nearby].
Proof.
  apply (@failed_fetch_reports_once xreal _ unit (Fin 19.076) (Fin 72.8777) fetch_rejects
           (set (setLocations [nearby]) (initial xreal unit)));
    [reflexivity | left; reflexivity].
Defined.

(** C7, the counterexample: a run that is not debounced away and has a NaN
    latitude calls [setLoading] not once. *)
Lemma NaN_run_leaves_loading :
  loadingCalls (calls (fetchLocations_callback unit NaN (Fin 72.8777)) fetch_rejects)
  = [].
Proof. reflexivity. Qed.

(** C6, the counterexample: three calls 100 ms apart, the last with a NaN.
    No downstream request is issued, not exactly one. *)
Lemma NaN_burst_issues_nothing :
  downstream
    (fetchLocations unit
       [(0, (Fin 1, Fin 2)); (100, (Fin 3, Fin 4)); (200, (NaN, Fin 6))]%Z)
  = [].
Proof. reflexivity. Qed.

(** C6, at a sample: three calls 100 ms apart. *)
Lemma burst_issues_last_request_sample :
  fetchLocations unit [(0, (Fin 1, Fin 2)); (100, (Fin 3, Fin 4)); (200, (Fin 5, Fin 6))]%Z
  = [(700%Z, fetchLocations_callback unit (Fin 5) (Fin 6))]
  /\ downstream
       (fetchLocations unit
          [(0, (Fin 1, Fin 2)); (100, (Fin 3, Fin 4)); (200, (Fin 5, Fin 6))]%Z)
     = [{| path := "/api/places"; query := [("lat", Fin 5); ("lng", Fin 6)] |}]%string.
Proof.
  assert (Hb : Debounce.burst 500
                 [(0, (Fin 1, Fin 2)); (100, (Fin 3, Fin 4)); (200, (Fin 5, Fin 6))]%Z)
    by (cbn [Debounce.burst]; lia).
  exact (@burst_issues_last_request xreal _ unit (0%Z, (Fin 1, Fin 2))
           [(100, (Fin 3, Fin 4)); (200, (Fin 5, Fin 6))]%Z Hb).
Defined.

(** ** The places proxy *)

Section ProxyClaims.

Import Route.

Variable Results : Type.

Local Open Scope string_scope.

Lemma falsy_false (v : option string) :
  falsy v = false -> exists s, v = Some s /\ s <> "".
Proof.
  destruct v as [s|]; [|discriminate]. cbn [falsy]. intros Hs.
  exists s. split; [reflexivity|]. intros ->. discriminate Hs.
Qed.

Lemma falsy_true (v : option string) : falsy v = true <-> v = None \/ v = Some "".
Proof.
  destruct v as [s|]; cbn [falsy].
  - rewrite String.eqb_eq. split; [intros ->; now right | intros [H|H]; congruence].
  - split; [now left | reflexivity].
Qed.

(** The handler sends the upstream request exactly when both values are
    there and not empty, and then sends this one. *)
Lemma GET_cases (k : option string) (q : list (string * string)) :
  (falsy (get "lat" q) || falsy (get "lng" q) = true
   /\ GET Results k q
      = Respond {| body := error_body "Missing coordinates"; status := 400 |})
  \/ (exists a b resume,
         get "lat" q = Some a /\ get "lng" q = Some b /\ a <> "" /\ b <> ""
         /\ GET Results k q
            = AxiosGet
                {| url := "https://maps.googleapis.com/maps/api/place/nearbysearch/json";
                   params := {| location := a ++ "," ++ b;
                                radius := 5000;
                                type := "school|university|college|government_office ";
                                key := k |} |}
                resume
         /\ resume throws
            = {| body := error_body "Failed to fetch locations"; status := 500 |}
         /\ forall results,
              resume (resolves results)
              = {| body := results_body results; status := 200 |}).
Proof.
  unfold GET. destruct (falsy (get "lat" q) || falsy (get "lng" q)) eqn:E.
  - left. now split.
  - right. apply orb_false_elim in E. destruct E as [Ea Eb].
    destruct (falsy_false _ Ea) as (a & Ha & Hna).
    destruct (falsy_false _ Eb) as (b & Hb & Hnb).
    rewrite Ha, Hb. eexists a, b, _. repeat split; assumption.
Qed.

(** C2.  A request without [lat] or without [lng] is answered 400 with
    "Missing coordinates" and no upstream request is sent.  When both are
    there and the upstream request is sent, the answer is 500 with "Failed to
    fetch locations" if it throws, and 200 with the results as they came if
    it resolves. *)
Theorem proxy_responses (k : option string) (q : list (string * string)) :
  (get "lat" q = None \/ get "lng" q = None ->
   GET Results k q
   = Respond {| body := error_body "Missing coordinates"; status := 400 |}
   /\ contacted (GET Results k q) = [])
  /\ (forall a b,
         get "lat" q = Some a -> get "lng" q = Some b ->
         contacted (GET Results k q) <> [] ->
         response (GET Results k q) throws
         = {| body := error_body "Failed to fetch locations"; status := 500 |}
         /\ forall results,
              response (GET Results k q) (resolves results)
              = {| body := results_body results; status := 200 |}).
Proof.
  split.
  - intros Hmiss. destruct (GET_cases k q) as [[_ ->] | (a & b & r & Ha & Hb & _)].
    + now split.
    + destruct Hmiss; congruence.
  - intros a b _ _ Hsent.
    destruct (GET_cases k q) as [[_ E] | (a' & b' & r & _ & _ & _ & _ & E & Ht & Hr)];
      rewrite E in *.
    + now contradiction Hsent.
    + split; [exact Ht | exact Hr].
Qed.

(** C10.  The answer is 400 exactly when [lat] or [lng] is absent or the
    empty string.  Otherwise the two strings, whatever they are, go into the
    upstream request as they came, joined by a comma. *)
Theorem proxy_forwards_verbatim (k : option string) (q : list (string * string)) :
  (forall upstream,
      status (response (GET Results k q) upstream) = 400%Z
      <-> (get "lat" q = None \/ get "lat" q = Some "")
          \/ (get "lng" q = None \/ get "lng" q = Some ""))
  /\ (forall a b,
         get "lat" q = Some a -> get "lng" q = Some b -> a <> "" -> b <> "" ->
         exists req, contacted (GET Results k q) = [req]
                     /\ location (params req) = a ++ "," ++ b).
Proof.
  split.
  - intros upstream. rewrite <- !falsy_true, <- orb_true_iff.
    destruct (GET_cases k q) as [[Hm ->] | (a & b & r & Ha & Hb & Hna & Hnb & -> & Ht & Hr)].
    + cbn [response status]. tauto.
    + cbn [response]. rewrite Ha, Hb. cbn [falsy].
      destruct (String.eqb_spec a ""); [contradiction|].
      destruct (String.eqb_spec b ""); [contradiction|].
      destruct upstream; [rewrite Hr | rewrite Ht]; cbn [status orb];
        split; discriminate.
  - intros a b Ha Hb Hna Hnb.
    destruct (GET_cases k q) as [[Hm _] | (a' & b' & r & Ha' & Hb' & _ & _ & -> & _)].
    + rewrite Ha, Hb in Hm. cbn [falsy] in Hm.
      destruct (String.eqb_spec a ""); [contradiction|].
      destruct (String.eqb_spec b ""); [contradiction|]. discriminate Hm.
    + eexists. split; [reflexivity|]. cbn [params location]. congruence.
Qed.

End ProxyClaims.

(** C2, at a sample: [lng] alone, and both. *)
Lemma proxy_responses_sample :
  (Route.GET unit (Some "k") [("lng", "72.8777")]
   = Route.Respond {| Route.body := Route.error_body "Missing coordinates";
                      Route.status := 400 |}
   /\ Route.contacted (Route.GET unit (Some "k") [("lng", "72.8777")]) = [])%string
  /\ (Route.response
        (Route.GET unit (Some "k") [("lat", "19.076"); ("lng", "72.8777")])
        Route.throws
      = {| Route.body := Route.error_body "Failed to fetch locations";
           Route.status := 500 |}
      /\ forall results,
           Route.response
             (Route.GET unit (Some "k") [("lat", "19.076"); ("lng", "72.8777")])
             (Route.resolves results)
           = {| Route.body := Route.results_body results; Route.status := 200 |})%string.
Proof.
  split.
  - apply (proj1 (proxy_responses unit (Some "k") [("lng", "72.8777")])%string).
    left; reflexivity.
  - apply (proj2 (proxy_responses unit (Some "k")
                    [("lat", "19.076"); ("lng", "72.8777")])%string
             "19.076" "72.8777")%string; [reflexivity | reflexivity | discriminate].
Defined.

(** C10, at a sample: letters for a latitude. *)
Lemma proxy_forwards_verbatim_sample :
  exists req,
    Route.contacted (Route.GET unit None [("lat", "abc"); ("lng", "72.8777")])%string
    = [req]
    /\ Route.location (Route.params req) = "abc,72.8777"%string.
Proof.
  apply (proj2 (proxy_forwards_verbatim unit None [("lat", "abc"); ("lng", "72.8777")])%string
           "abc" "72.8777")%string; [reflexivity | reflexivity | discriminate | discriminate].
Defined.

(** C8, at the failing input.  Of the request sent for lat=19.076 and
    lng=72.8777, the last word of the type filter is "government_office "
    with a space after it, which is not the category [government_office]. *)
Theorem type_filter_trailing_space :
  map (fun req => Route.split "|" (Route.type (Route.params req)))
      (Route.contacted
         (Route.GET unit (Some "k") [("lat", "19.076"); ("lng", "72.8777")]))%string
  = [["school"; "university"; "college"; "government_office "]]%string
  /\ "government_office "%string <> "government_office"%string.
Proof. split; [reflexivity | discriminate]. Qed.

(** * Further properties *)

(** ** The distance calculator *)

Section DistanceMore.

Local Open Scope R_scope.

(** X3.  A NaN in any of the four positions makes the distance NaN, whatever
    the other three numbers are. *)
Theorem calculateDistance_NaN (x y z : xreal) :
  calculateDistance NaN x y z = NaN
  /\ calculateDistance x NaN y z = NaN
  /\ calculateDistance x y NaN z = NaN
  /\ calculateDistance x y z NaN = NaN.
Proof.
  repeat split; apply calculateDistance_not_finite; cbn [XReal.finite];
    now rewrite ?andb_false_r.
Qed.

End DistanceMore.

Module DoubleMore.

Import Floats.
Import Double.
Import DoubleFacts.
Local Open Scope float_scope.

Lemma add_nan_r (x : float) : x + nan = nan.
Proof.
  apply Prim2SF_inj. rewrite add_spec, Prim2SF_nan. now destruct (Prim2SF x).
Qed.

Lemma sub_nan_l (x : float) : nan - x = nan.
Proof. apply Prim2SF_inj. rewrite sub_spec. reflexivity. Qed.

Lemma sub_nan_r (x : float) : x - nan = nan.
Proof.
  apply Prim2SF_inj. rewrite sub_spec, Prim2SF_nan. now destruct (Prim2SF x).
Qed.

Lemma mul_nan_l (x : float) : nan * x = nan.
Proof. apply Prim2SF_inj. rewrite mul_spec. reflexivity. Qed.

Lemma div_nan_l (x : float) : nan / x = nan.
Proof. apply Prim2SF_inj. rewrite div_spec. reflexivity. Qed.

Lemma sin_nan (E : Engine) : engine_sin E nan = nan.
Proof. now apply sin_not_finite. Qed.

(** X4.  In doubles, on every engine, a NaN in any of the four positions
    makes the distance NaN. *)
Theorem calculateDistance_NaN_double (E : Engine) (x y z : float) :
  @calculateDistance float (float_number E) nan x y z = nan
  /\ @calculateDistance float (float_number E) x nan y z = nan
  /\ @calculateDistance float (float_number E) x y nan z = nan
  /\ @calculateDistance float (float_number E) x y z nan = nan.
Proof.
  unfold calculateDistance.
  cbn [lit js_sub js_mul js_div js_add Math_PI Math_sin Math_cos Math_sqrt Math_atan2
       float_number].
  assert (Hend : forall t : float,
             of_Z 6371 * (of_Z 2 * engine_atan2 E (sqrt nan) t) = nan).
  { intros t. change (sqrt nan) with nan. now rewrite atan2_nan_l, !mul_nan_r. }
  repeat split.
  - rewrite sub_nan_r, mul_nan_l, !div_nan_l, sin_nan, mul_nan_l, add_nan_l. apply Hend.
  - rewrite sub_nan_r, mul_nan_l, !div_nan_l, sin_nan, !mul_nan_r, add_nan_r. apply Hend.
  - rewrite sub_nan_l, mul_nan_l, !div_nan_l, sin_nan, mul_nan_l, add_nan_l. apply Hend.
  - rewrite sub_nan_l, mul_nan_l, !div_nan_l, sin_nan, !mul_nan_r, add_nan_r. apply Hend.
Qed.

(** The finite values of the specification. *)
Lemma is_finite_spec (x : float) :
  is_finite x = true ->
  match Prim2SF x with
  | S754_zero _ | S754_finite _ _ _ => True
  | _ => False
  end.
Proof.
  unfold is_finite, is_infinity, is_nan. rewrite !eqb_spec, abs_spec.
  change (Prim2SF infinity) with (S754_infinity false).
  destruct (Prim2SF x) as [s|s| |s m e]; intros H; try exact I;
    [destruct s|]; discriminate H.
Qed.

Lemma sub_self (x : float) : is_finite x = true -> x - x = 0.
Proof.
  intros Hx. apply is_finite_spec in Hx. apply Prim2SF_inj. rewrite sub_spec.
  change (Prim2SF 0) with (S754_zero false).
  destruct (Prim2SF x) as [s|s| |s m e]; try contradiction.
  - now destruct s.
  - unfold SF64sub, SFsub. now rewrite Z.sub_diag.
Qed.

(** A square is not negative. *)
Lemma square_sign (s : spec_float) :
  match SF64mul s s with
  | S754_zero sz => sz = false
  | S754_finite sz _ _ => sz = false
  | _ => True
  end.
Proof.
  destruct s as [sx|sx| |sx m e]; unfold SF64mul; cbn [SFmul]; trivial.
  - now destruct sx.
  - rewrite xorb_nilpotent. unfold binary_round_aux.
    destruct (shr_fexp prec emax _ _ loc_Exact) as [mrs' e'].
    destruct (shr_fexp prec emax _ e' loc_Exact) as [mrs'' e''].
    destruct (shr_m mrs''); trivial.
    now destruct (Z.leb e'' (emax - prec)).
Qed.

Lemma square_times_zero (c : float) : is_finite (c * c) = true -> c * c * 0 = 0.
Proof.
  intros Hf. apply is_finite_spec in Hf. apply Prim2SF_inj.
  rewrite !mul_spec. change (Prim2SF 0) with (S754_zero false).
  pose proof (square_sign (Prim2SF c)) as Hs. rewrite mul_spec in Hf.
  destruct (SF64mul (Prim2SF c) (Prim2SF c)) as [s|s| |s m e]; try contradiction;
    now subst s.
Qed.

(** X1.  In doubles, on an engine that has sin (+0) = +0 and
    atan2 (+0, 1) = +0 as ECMA-262 asks, the distance from a point with
    finite coordinates to itself is +0, provided the square of the cosine of
    its latitude is a finite number. *)
Theorem calculateDistance_same_point (E : Engine) (lat0 lon0 : float) :
  engine_sin E 0 = 0 ->
  engine_atan2 E 0 1 = 0 ->
  is_finite lat0 = true ->
  is_finite lon0 = true ->
  is_finite (engine_cos E (lat0 * 0x1.921fb54442d18p+1 / of_Z 180)
             * engine_cos E (lat0 * 0x1.921fb54442d18p+1 / of_Z 180)) = true ->
  @calculateDistance float (float_number E) lat0 lon0 lat0 lon0 = 0.
Proof.
  intros Hsin Hatan Hlat Hlon Hcos.
  unfold calculateDistance.
  cbn [lit js_sub js_mul js_div js_add Math_PI Math_sin Math_cos Math_sqrt Math_atan2
       float_number].
  rewrite (sub_self _ Hlat), (sub_self _ Hlon).
  change (0 * 0x1.921fb54442d18p+1 / of_Z 180 / of_Z 2) with 0.
  rewrite Hsin, (square_times_zero _ Hcos).
  change (0 * 0 + 0 * 0) with 0.
  change (sqrt 0) with 0. change (sqrt (of_Z 1 - 0)) with 1.
  rewrite Hatan. reflexivity.
Qed.

(** X1, at a sample: a point with coordinates that are binary fractions. *)
Lemma calculateDistance_same_point_sample :
  @calculateDistance float (float_number sampled) 19.125 72.875 19.125 72.875 = 0.
Proof.
  apply (@calculateDistance_same_point sampled 19.125 72.875);
    vm_compute; reflexivity.
Defined.

End DoubleMore.

(** ** Sorting *)

Section SortMore.

Local Open Scope R_scope.

(** X5.  The published list holds the places of the response, each with its
    distance set, and nothing else: it is a rearrangement of them, of the
    same length as the response. *)
Theorem locationsWithDistance_permutation
    (N : Type) `{JSNumber N} (lat0 lng0 : N) (data : list (PlaceResult N)) :
  Permutation (locationsWithDistance lat0 lng0 data) (map (withDistance lat0 lng0) data)
  /\ List.length (locationsWithDistance lat0 lng0 data) = List.length data.
Proof.
  assert (Hp : Permutation (locationsWithDistance lat0 lng0 data)
                 (map (withDistance lat0 lng0) data))
    by apply Array_sort_perm.
  split; [exact Hp|]. now rewrite (Permutation_length Hp), length_map.
Qed.



Lemma sorted_fixed (l : list (PlaceResult xreal)) :
  StronglySorted ordered l -> Array_sort byDistance l = l.
Proof.
  induction 1 as [|x l Hl IH Hx]; [reflexivity|].
  cbn [Array_sort fold_right]. fold (Array_sort byDistance l). rewrite IH.
  destruct l as [|y l]; [reflexivity|]. cbn [insert].
  pose proof (byDistance_sign x y) as Hs.
  destruct (positive (byDistance x y)); [|reflexivity].
  inversion Hx; subst. tauto.
Qed.

(** X8.  Sorting a sorted list changes nothing. *)
Theorem sorting_twice (l : list (PlaceResult xreal)) :
  Array_sort byDistance (Array_sort byDistance l) = Array_sort byDistance l.
Proof. apply sorted_fixed, Array_sort_sorted. Qed.





End SortMore.


(** ** The location fetcher and the geolocation acquirer *)

Section FetcherMore.

Context {N : Type} `{JSNumber N}.
Variable DirectionsResult : Type.

Local Open Scope string_scope.

(** X10.  A run with numbers for coordinates issues one request, for
    [/api/places] with the two numbers.  When the response is an array of
    places, the published list becomes the sorted list computed from it,
    whatever was published before; the loading flag ends [false]; the error
    slot is left as it was (an earlier error stays on display). *)
Theorem successful_fetch_replaces_list
    (lat0 lng0 : N) (data : list (PlaceResult N)) (s : State N DirectionsResult) :
  isNaN lat0 || isNaN lng0 = false ->
  requests (fetchLocations_callback DirectionsResult lat0 lng0)
  = [{| path := "/api/places"; query := [("lat", lat0); ("lng", lng0)] |}]
  /\ locations (after (calls (fetchLocations_callback DirectionsResult lat0 lng0)
                             (json_places data)) s)
     = locationsWithDistance lat0 lng0 data
  /\ error (after (calls (fetchLocations_callback DirectionsResult lat0 lng0)
                         (json_places data)) s)
     = error s
  /\ loading (after (calls (fetchLocations_callback DirectionsResult lat0 lng0)
                           (json_places data)) s)
     = false.
Proof.
  intros Hnum. unfold fetchLocations_callback. rewrite Hnum. repeat split.
Qed.

Lemma after_error_kept
    (cs : list (SetState N DirectionsResult)) (s : State N DirectionsResult) :
  Forall (fun m => m <> "") (errorCalls cs) -> error s <> "" -> error (after cs s) <> "".
Proof.
  unfold after. revert s. induction cs as [|c cs IH]; intros s Hall Hs; [exact Hs|].
  cbn [fold_left]. apply IH.
  - destruct c; cbn [errorCalls] in Hall; try exact Hall. now inversion Hall.
  - destruct c; cbn [set error]; try exact Hs. cbn [errorCalls] in Hall. now inversion Hall.
Qed.

(** X11.  Nothing clears the error slot: once it holds a message, it holds
    one after any run of the fetcher's arrow, of [getLocation] and of the
    directions callback, successful or not. *)
Theorem error_is_never_cleared
    (s : State N DirectionsResult) (lat0 lng0 : N) (settled : Response N)
    (geolocation : bool) (p : Position N) (result : DirectionsResult) (status : string) :
  error s <> "" ->
  error (after (calls (fetchLocations_callback DirectionsResult lat0 lng0) settled) s) <> ""
  /\ error (after (acquired (getLocation N DirectionsResult geolocation) p) s) <> ""
  /\ error (after (directionsCallback N result status) s) <> "".
Proof.
  intros Hs. repeat split; apply after_error_kept; try exact Hs.
  - unfold fetchLocations_callback. destruct (isNaN lat0 || isNaN lng0).
    + repeat constructor; discriminate.
    + destruct settled; repeat constructor; discriminate.
  - destruct geolocation, p; repeat constructor; discriminate.
  - unfold directionsCallback. destruct (status =? "OK"); constructor.
Qed.

(** X12.  [getLocation]: a position sets the user's location to it, which
    makes the second effect call [fetchLocations] with its two numbers, and
    leaves the error slot alone; a position error, and a browser without
    geolocation, leave the user's location as it was and report one error
    each. *)
Theorem getLocation_outcomes
    (s : State N DirectionsResult) (latitude longitude : N) :
  (userLocation (after (acquired (getLocation N DirectionsResult true)
                                 (coords latitude longitude)) s)
   = Some {| lat := latitude; lng := longitude |}
   /\ fetchEffect (after (acquired (getLocation N DirectionsResult true)
                                   (coords latitude longitude)) s)
      = Some (latitude, longitude)
   /\ error (after (acquired (getLocation N DirectionsResult true)
                             (coords latitude longitude)) s) = error s)
  /\ (userLocation (after (acquired (getLocation N DirectionsResult true)
                                    position_error) s) = userLocation s
      /\ errorCalls (acquired (getLocation N DirectionsResult true) position_error)
         = ["Please enable location access to find nearby locations."])
  /\ (forall p,
         userLocation (after (acquired (getLocation N DirectionsResult false) p) s)
         = userLocation s
         /\ errorCalls (acquired (getLocation N DirectionsResult false) p)
            = ["Geolocation is not supported by your browser."]).
Proof. repeat split. Qed.

End FetcherMore.

(** X10, at a sample: an empty array while a list is on display and an error
    is shown. *)
Lemma successful_fetch_replaces_list_sample :
  requests (fetchLocations_callback unit (Fin 19.076) (Fin 72.8777))
  = [{| path := "/api/places";
        query := [("lat", Fin 19.076); ("lng", Fin 72.8777)] |}]%string
  /\ locations (after (calls (fetchLocations_callback unit (Fin 19.076) (Fin 72.8777))
                             (json_places []))
                      (set (setError "old") (set (setLocations [nearby]) (initial xreal unit))))
     = locationsWithDistance (Fin 19.076) (Fin 72.8777) []
  /\ error (after (calls (fetchLocations_callback unit (Fin 19.076) (Fin 72.8777))
                         (json_places []))
                  (set (setError "old") (set (setLocations [nearby]) (initial xreal unit))))
     = error (set (setError "old") (set (setLocations [nearby]) (initial xreal unit)))
  /\ loading (after (calls (fetchLocations_callback unit (Fin 19.076) (Fin 72.8777))
                           (json_places []))
                    (set (setError "old") (set (setLocations [nearby]) (initial xreal unit))))
     = false.
Proof.
  apply (@successful_fetch_replaces_list xreal _ unit (Fin 19.076) (Fin 72.8777) []
           (set (setError "old") (set (setLocations [nearby]) (initial xreal unit)))).
  reflexivity.
Defined.

(** X11, at a sample: the geolocation error stays through a fetch that
    succeeds. *)
Lemma error_is_never_cleared_sample :
  error (after (calls (fetchLocations_callback unit (Fin 19.076) (Fin 72.8777))
                      (json_places [nearby]))
               (set (setError "Please enable location access to find nearby locations.")
                    (initial xreal unit)))
  <> ""%string.
Proof.
  apply (@error_is_never_cleared xreal _ unit
           (set (setError "Please enable location access to find nearby locations.")
                (initial xreal unit))
           (Fin 19.076) (Fin 72.8777) (json_places [nearby]) true position_error tt "OK").
  discriminate.
Defined.

(** ** The places proxy, alone and in front of the page *)

Section ProxyMore.

Import Route.

Local Open Scope string_scope.

(** X13.  The handler sends at most one upstream request, and every request
    it sends goes to the nearby-search address with a radius of 5000, the
    environment's key, and [lat] and [lng] of the query joined by a comma
    for a location. *)
Theorem upstream_request_shape
    (Results : Type) (k : option string) (q : list (string * string)) :
  (List.length (contacted (GET Results k q)) <= 1)%nat
  /\ Forall (fun req =>
               url req = "https://maps.googleapis.com/maps/api/place/nearbysearch/json"
               /\ radius (params req) = 5000%Z
               /\ key (params req) = k
               /\ exists a b, get "lat" q = Some a /\ get "lng" q = Some b
                              /\ location (params req) = a ++ "," ++ b)
            (contacted (GET Results k q)).
Proof.
  destruct (GET_cases Results k q)
    as [[_ ->] | (a & b & r & Ha & Hb & _ & _ & -> & _)]; cbn [contacted List.length].
  - split; [lia | constructor].
  - split; [lia|]. repeat constructor. now exists a, b.
Qed.

Context {N : Type} `{JSNumber N}.
Variable DirectionsResult : Type.

(** X14.  The page does not look at the status of the response.  When the
    proxy answers anything but 200, its body is the error object; reading it
    as a list of places throws, so the page reports "Failed to fetch
    locations." once and keeps the list it had. *)
Theorem proxy_error_reaches_page
    (k : option string) (q : list (string * string))
    (upstream : Upstream (option (list (PlaceResult N))))
    (lat0 lng0 : N) (s : State N DirectionsResult) :
  isNaN lat0 || isNaN lng0 = false ->
  status (response (GET _ k q) upstream) <> 200%Z ->
  errorCalls (calls (fetchLocations_callback DirectionsResult lat0 lng0)
                    (received (response (GET _ k q) upstream)))
  = ["Failed to fetch locations."]
  /\ locations (after (calls (fetchLocations_callback DirectionsResult lat0 lng0)
                             (received (response (GET _ k q) upstream))) s)
     = locations s.
Proof.
  intros Hnum Hstatus.
  assert (Hr : received (response (GET _ k q) upstream) = json_other).
  { destruct (GET_cases (option (list (PlaceResult N))) k q)
      as [[_ E] | (a & b & r & _ & _ & _ & _ & E & Ht & Hr)];
      rewrite E in *; cbn [response] in *; [reflexivity|].
    destruct upstream as [results|]; [|now rewrite Ht].
    rewrite Hr in Hstatus. now contradiction Hstatus. }
  rewrite Hr. unfold fetchLocations_callback. rewrite Hnum. now split.
Qed.

(** X15.  When the proxy relays an array of places, the page publishes those
    places, each with its distance from the coordinates the page asked
    with, sorted. *)
Theorem proxy_results_reach_page
    (k : option string) (q : list (string * string)) (data : list (PlaceResult N))
    (lat0 lng0 : N) (s : State N DirectionsResult) :
  isNaN lat0 || isNaN lng0 = false ->
  contacted (GET (option (list (PlaceResult N))) k q) <> [] ->
  locations (after (calls (fetchLocations_callback DirectionsResult lat0 lng0)
                          (received (response (GET _ k q) (resolves (Some data))))) s)
  = locationsWithDistance lat0 lng0 data.
Proof.
  intros Hnum Hsent.
  assert (Hr : received (response (GET _ k q) (resolves (Some data))) = json_places data).
  { destruct (GET_cases (option (list (PlaceResult N))) k q)
      as [[_ E] | (a & b & r & _ & _ & _ & _ & E & _ & Hr)];
      rewrite E in *; cbn [response contacted] in *; [now contradiction Hsent|].
    now rewrite Hr. }
  rewrite Hr. unfold fetchLocations_callback. now rewrite Hnum.
Qed.

End ProxyMore.

(** X14, at a sample: the proxy's 400 for a request without [lng]. *)
Lemma proxy_error_reaches_page_sample :
  errorCalls (calls (fetchLocations_callback unit (Fin 19.076) (Fin 72.8777))
                    (received (Route.response
                                 (Route.GET _ None [("lat", "19.076")]%string)
                                 Route.throws)))
  = ["Failed to fetch locations."%string]
  /\ locations (after (calls (fetchLocations_callback unit (Fin 19.076) (Fin 72.8777))
                             (received (Route.response
                                          (Route.GET _ None [("lat", "19.076")]%string)
                                          Route.throws)))
                      (set (setLocations [nearby]) (initial xreal unit)))
     = locations (set (setLocations [nearby]) (initial xreal unit)).
Proof.
  apply (@proxy_error_reaches_page xreal _ unit None [("lat", "19.076")]%string
           Route.throws (Fin 19.076) (Fin 72.8777)
           (set (setLocations [nearby]) (initial xreal unit)));
    [reflexivity | discriminate].
Defined.

(** X15, at a sample: one place relayed. *)
Lemma proxy_results_reach_page_sample :
  locations (after (calls (fetchLocations_callback unit (Fin 19.076) (Fin 72.8777))
                          (received (Route.response
                                       (Route.GET _ (Some "k"%string)
                                          [("lat", "19.076"); ("lng", "72.8777")]%string)
                                       (Route.resolves (Some [nearby])))))
                   (initial xreal unit))
  = locationsWithDistance (Fin 19.076) (Fin 72.8777) [nearby].
Proof.
  apply (@proxy_results_reach_page xreal _ unit (Some "k"%string)
           [("lat", "19.076"); ("lng", "72.8777")]%string [nearby]
           (Fin 19.076) (Fin 72.8777) (initial xreal unit));
    [reflexivity | discriminate].
Defined.

(** ** Selection, route and display *)

Section DisplayMore.

Context {N : Type} `{JSNumber N}.
Variable DirectionsResult : Type.

Local Open Scope string_scope.

(** X16.  Selecting a place asks for a route from the user's location to
    that place when the user's location is known, and for none otherwise.  It
    leaves the route on display as it was; so does a directions request that
    ends with a status other than "OK". *)
Theorem selection_keeps_route
    (s : State N DirectionsResult) (p : PlaceResult N)
    (result : DirectionsResult) (status : string) :
  directionsRequest (set (setSelectedLocation p) s)
  = match userLocation s with
    | Some u => Some {| destination := {| lat := lat (location (geometry p));
                                          lng := lng (location (geometry p)) |};
                        origin := u |}
    | None => None
    end
  /\ directionsResult (set (setSelectedLocation p) s) = directionsResult s
  /\ (String.eqb status "OK" = false ->
      after (directionsCallback N result status) s = s)
  /\ directionsResult (after (directionsCallback N result "OK") s) = Some result.
Proof.
  split; [|split; [|split]].
  - unfold directionsRequest. cbn [set selectedLocation userLocation].
    destruct (userLocation s); reflexivity.
  - reflexivity.
  - intros Hs. unfold directionsCallback. rewrite Hs. reflexivity.
  - reflexivity.
Qed.

(** X17.  After a fetch that fails while a list is on display, the list
    section shows that list again and the banner shows "Failed to fetch
    locations.". *)
Theorem failed_fetch_shows_previous_list
    (lat0 lng0 : N) (settled : Response N) (s : State N DirectionsResult) :
  isNaN lat0 || isNaN lng0 = false ->
  settled = fetch_rejects \/ settled = json_rejects \/ settled = json_other ->
  locations s <> [] ->
  listPanel (after (calls (fetchLocations_callback DirectionsResult lat0 lng0) settled) s)
  = Cards (locations s)
  /\ banner (after (calls (fetchLocations_callback DirectionsResult lat0 lng0) settled) s)
     = Some "Failed to fetch locations.".
Proof.
  intros Hnum Hfail Hlist. unfold fetchLocations_callback. rewrite Hnum.
  assert (Hpanel : forall st : State N DirectionsResult,
             loading st = false -> locations st = locations s ->
             listPanel st = Cards (locations s)).
  { intros st Hl Hloc. unfold listPanel. rewrite Hl, Hloc.
    destruct (locations s); [contradiction | reflexivity]. }
  destruct Hfail as [-> | [-> | ->]]; split;
    first [apply Hpanel; reflexivity | reflexivity].
Qed.

(** X18.  When the position cannot be had, from the initial state the page
    shows the banner with the reason and nothing under it: neither the
    "detecting" indicator nor the map. *)
Theorem no_position_shows_banner_only (geolocation : bool) :
  mainArea (after (acquired (getLocation N DirectionsResult geolocation) position_error)
                  (initial N DirectionsResult))
  = Nothing
  /\ banner (after (acquired (getLocation N DirectionsResult geolocation) position_error)
                   (initial N DirectionsResult))
     = Some (if geolocation
             then "Please enable location access to find nearby locations."
             else "Geolocation is not supported by your browser.")
  /\ mainArea (initial N DirectionsResult) = Detecting.
Proof. destruct geolocation; repeat split. Qed.

End DisplayMore.

(** X17, at a sample: the transport fails while one place is on display. *)
Lemma failed_fetch_shows_previous_list_sample :
  listPanel (after (calls (fetchLocations_callback unit (Fin 19.076) (Fin 72.8777))
                          fetch_rejects)
                   (set (setLocations [nearby]) (initial xreal unit)))
  = Cards (locations (set (setLocations [nearby]) (initial xreal unit)))
  /\ banner (after (calls (fetchLocations_callback unit (Fin 19.076) (Fin 72.8777))
                          fetch_rejects)
                   (set (setLocations [nearby]) (initial xreal unit)))
     = Some "Failed to fetch locations."%string.
Proof.
  apply (@failed_fetch_shows_previous_list xreal _ unit (Fin 19.076) (Fin 72.8777)
           fetch_rejects (set (setLocations [nearby]) (initial xreal unit)));
    [reflexivity | left; reflexivity | discriminate].
Defined.
